(** * Resume ATS backend: the analysis performed by [parse_resume]

    A shallow embedding of [src/main.py], lines 54-140: the keyword and
    section tables, the text analysis done inside the request handler, and
    the [try]/[except] that turns a raised exception into a 500 response.

    Conventions of the embedding.
    - A Python [str] is a [string]; a character is read as the code point
      with the same number, so the handler is modelled on texts over
      U+0000 to U+00FF.  [isspace] and [lower_char] tabulate what
      [str.isspace] and [str.lower] do on these code points.  The regular
      expression of line 86 is modelled on sequences of code points of any
      size, with the class [\w] and the case-insensitive comparison of
      [re] given for every code point.
    - A Python [int] is a [Z]; a Python [float] is an IEEE 754 binary64
      number, [spec_float] at precision 53, with the operations of
      [SpecFloat] (round to nearest, ties to even).
    - An exception is a value of [PyError]; code that can raise lives in
      the monad [Exc].
    - The upload of the file, the extraction of the text from the PDF and
      the [file_url] field (which holds a fresh UUID) are input and output
      of the handler and are left out: the embedding starts from [text]. *)

From Stdlib Require Import ZArith NArith QArith Qround Qabs Lia.
From Stdlib Require Import List Bool Ascii String.
From Stdlib Require Import Floats.SpecFloat.
From stdpp Require Import base gmap sets strings.
Import ListNotations.

Local Open Scope string_scope.
Local Open Scope Z_scope.

(** ** Exceptions *)

Inductive PyError : Type :=
| IndexError
| ZeroDivisionError
| ValueError
| OverflowError.

(** [str(e)] for the exceptions above, as CPython words them. *)
Definition str_of_error (e : PyError) : string :=
  match e with
  | IndexError => "list index out of range"
  | ZeroDivisionError => "division by zero"
  | ValueError => "cannot convert float NaN to integer"
  | OverflowError => "cannot convert float infinity to integer"
  end.

Definition Exc (A : Type) : Type := PyError + A.

Definition ret {A : Type} (a : A) : Exc A := inr a.
Definition raise {A : Type} (e : PyError) : Exc A := inl e.
Definition bind {A B : Type} (m : Exc A) (k : A -> Exc B) : Exc B :=
  match m with
  | inl e => inl e
  | inr a => k a
  end.

Notation "'let*' x ':=' m 'in' k" := (bind m (fun x => k))
  (at level 10, x name, m at level 100, k at level 200).

(** ** Characters *)

Definition code (c : ascii) : N := N_of_ascii c.

Definition in_range (lo hi n : N) : bool := ((lo <=? n) && (n <=? hi))%N.

(** [str.isspace] on one character. *)
Definition isspace (c : ascii) : bool :=
  let n := code c in
  in_range 9 13 n || in_range 28 32 n || (n =? 133)%N || (n =? 160)%N.

(** Has [str.lower] something to do: the upper-case letters. *)
Definition isupper (c : ascii) : bool :=
  let n := code c in
  in_range 65 90 n || in_range 192 214 n || in_range 216 222 n.

Definition lower_char (c : ascii) : ascii :=
  if isupper c then ascii_of_N (code c + 32) else c.

(** The class [\w] of [re] on a [str] pattern, alphanumeric or
    underscore, as ranges of code points: those of Unicode 14.0, the
    version of the character database of CPython 3.11. *)
Definition WORD_RANGES : list (N * N) :=
  [(48, 57); (65, 90); (95, 95); (97, 122); (170, 170); (178, 179);
   (181, 181); (185, 186); (188, 190); (192, 214); (216, 246); (248, 705);
   (710, 721); (736, 740); (748, 748); (750, 750); (880, 884); (886, 887);
   (890, 893); (895, 895); (902, 902); (904, 906); (908, 908); (910, 929);
   (931, 1013); (1015, 1153); (1162, 1327); (1329, 1366); (1369, 1369);
   (1376, 1416); (1488, 1514); (1519, 1522); (1568, 1610); (1632, 1641);
   (1646, 1647); (1649, 1747); (1749, 1749); (1765, 1766); (1774, 1788);
   (1791, 1791); (1808, 1808); (1810, 1839); (1869, 1957); (1969, 1969);
   (1984, 2026); (2036, 2037); (2042, 2042); (2048, 2069); (2074, 2074);
   (2084, 2084); (2088, 2088); (2112, 2136); (2144, 2154); (2160, 2183);
   (2185, 2190); (2208, 2249); (2308, 2361); (2365, 2365); (2384, 2384);
   (2392, 2401); (2406, 2415); (2417, 2432); (2437, 2444); (2447, 2448);
   (2451, 2472); (2474, 2480); (2482, 2482); (2486, 2489); (2493, 2493);
   (2510, 2510); (2524, 2525); (2527, 2529); (2534, 2545); (2548, 2553);
   (2556, 2556); (2565, 2570); (2575, 2576); (2579, 2600); (2602, 2608);
   (2610, 2611); (2613, 2614); (2616, 2617); (2649, 2652); (2654, 2654);
   (2662, 2671); (2674, 2676); (2693, 2701); (2703, 2705); (2707, 2728);
   (2730, 2736); (2738, 2739); (2741, 2745); (2749, 2749); (2768, 2768);
   (2784, 2785); (2790, 2799); (2809, 2809); (2821, 2828); (2831, 2832);
   (2835, 2856); (2858, 2864); (2866, 2867); (2869, 2873); (2877, 2877);
   (2908, 2909); (2911, 2913); (2918, 2927); (2929, 2935); (2947, 2947);
   (2949, 2954); (2958, 2960); (2962, 2965); (2969, 2970); (2972, 2972);
   (2974, 2975); (2979, 2980); (2984, 2986); (2990, 3001); (3024, 3024);
   (3046, 3058); (3077, 3084); (3086, 3088); (3090, 3112); (3114, 3129);
   (3133, 3133); (3160, 3162); (3165, 3165); (3168, 3169); (3174, 3183);
   (3192, 3198); (3200, 3200); (3205, 3212); (3214, 3216); (3218, 3240);
   (3242, 3251); (3253, 3257); (3261, 3261); (3293, 3294); (3296, 3297);
   (3302, 3311); (3313, 3314); (3332, 3340); (3342, 3344); (3346, 3386);
   (3389, 3389); (3406, 3406); (3412, 3414); (3416, 3425); (3430, 3448);
   (3450, 3455); (3461, 3478); (3482, 3505); (3507, 3515); (3517, 3517);
   (3520, 3526); (3558, 3567); (3585, 3632); (3634, 3635); (3648, 3654);
   (3664, 3673); (3713, 3714); (3716, 3716); (3718, 3722); (3724, 3747);
   (3749, 3749); (3751, 3760); (3762, 3763); (3773, 3773); (3776, 3780);
   (3782, 3782); (3792, 3801); (3804, 3807); (3840, 3840); (3872, 3891);
   (3904, 3911); (3913, 3948); (3976, 3980); (4096, 4138); (4159, 4169);
   (4176, 4181); (4186, 4189); (4193, 4193); (4197, 4198); (4206, 4208);
   (4213, 4225); (4238, 4238); (4240, 4249); (4256, 4293); (4295, 4295);
   (4301, 4301); (4304, 4346); (4348, 4680); (4682, 4685); (4688, 4694);
   (4696, 4696); (4698, 4701); (4704, 4744); (4746, 4749); (4752, 4784);
   (4786, 4789); (4792, 4798); (4800, 4800); (4802, 4805); (4808, 4822);
   (4824, 4880); (4882, 4885); (4888, 4954); (4969, 4988); (4992, 5007);
   (5024, 5109); (5112, 5117); (5121, 5740); (5743, 5759); (5761, 5786);
   (5792, 5866); (5870, 5880); (5888, 5905); (5919, 5937); (5952, 5969);
   (5984, 5996); (5998, 6000); (6016, 6067); (6103, 6103); (6108, 6108);
   (6112, 6121); (6128, 6137); (6160, 6169); (6176, 6264); (6272, 6276);
   (6279, 6312); (6314, 6314); (6320, 6389); (6400, 6430); (6470, 6509);
   (6512, 6516); (6528, 6571); (6576, 6601); (6608, 6618); (6656, 6678);
   (6688, 6740); (6784, 6793); (6800, 6809); (6823, 6823); (6917, 6963);
   (6981, 6988); (6992, 7001); (7043, 7072); (7086, 7141); (7168, 7203);
   (7232, 7241); (7245, 7293); (7296, 7304); (7312, 7354); (7357, 7359);
   (7401, 7404); (7406, 7411); (7413, 7414); (7418, 7418); (7424, 7615);
   (7680, 7957); (7960, 7965); (7968, 8005); (8008, 8013); (8016, 8023);
   (8025, 8025); (8027, 8027); (8029, 8029); (8031, 8061); (8064, 8116);
   (8118, 8124); (8126, 8126); (8130, 8132); (8134, 8140); (8144, 8147);
   (8150, 8155); (8160, 8172); (8178, 8180); (8182, 8188); (8304, 8305);
   (8308, 8313); (8319, 8329); (8336, 8348); (8450, 8450); (8455, 8455);
   (8458, 8467); (8469, 8469); (8473, 8477); (8484, 8484); (8486, 8486);
   (8488, 8488); (8490, 8493); (8495, 8505); (8508, 8511); (8517, 8521);
   (8526, 8526); (8528, 8585); (9312, 9371); (9450, 9471); (10102, 10131);
   (11264, 11492); (11499, 11502); (11506, 11507); (11517, 11517);
   (11520, 11557); (11559, 11559); (11565, 11565); (11568, 11623);
   (11631, 11631); (11648, 11670); (11680, 11686); (11688, 11694);
   (11696, 11702); (11704, 11710); (11712, 11718); (11720, 11726);
   (11728, 11734); (11736, 11742); (11823, 11823); (12293, 12295);
   (12321, 12329); (12337, 12341); (12344, 12348); (12353, 12438);
   (12445, 12447); (12449, 12538); (12540, 12543); (12549, 12591);
   (12593, 12686); (12690, 12693); (12704, 12735); (12784, 12799);
   (12832, 12841); (12872, 12879); (12881, 12895); (12928, 12937);
   (12977, 12991); (13312, 19903); (19968, 42124); (42192, 42237);
   (42240, 42508); (42512, 42539); (42560, 42606); (42623, 42653);
   (42656, 42735); (42775, 42783); (42786, 42888); (42891, 42954);
   (42960, 42961); (42963, 42963); (42965, 42969); (42994, 43009);
   (43011, 43013); (43015, 43018); (43020, 43042); (43056, 43061);
   (43072, 43123); (43138, 43187); (43216, 43225); (43250, 43255);
   (43259, 43259); (43261, 43262); (43264, 43301); (43312, 43334);
   (43360, 43388); (43396, 43442); (43471, 43481); (43488, 43492);
   (43494, 43518); (43520, 43560); (43584, 43586); (43588, 43595);
   (43600, 43609); (43616, 43638); (43642, 43642); (43646, 43695);
   (43697, 43697); (43701, 43702); (43705, 43709); (43712, 43712);
   (43714, 43714); (43739, 43741); (43744, 43754); (43762, 43764);
   (43777, 43782); (43785, 43790); (43793, 43798); (43808, 43814);
   (43816, 43822); (43824, 43866); (43868, 43881); (43888, 44002);
   (44016, 44025); (44032, 55203); (55216, 55238); (55243, 55291);
   (63744, 64109); (64112, 64217); (64256, 64262); (64275, 64279);
   (64285, 64285); (64287, 64296); (64298, 64310); (64312, 64316);
   (64318, 64318); (64320, 64321); (64323, 64324); (64326, 64433);
   (64467, 64829); (64848, 64911); (64914, 64967); (65008, 65019);
   (65136, 65140); (65142, 65276); (65296, 65305); (65313, 65338);
   (65345, 65370); (65382, 65470); (65474, 65479); (65482, 65487);
   (65490, 65495); (65498, 65500); (65536, 65547); (65549, 65574);
   (65576, 65594); (65596, 65597); (65599, 65613); (65616, 65629);
   (65664, 65786); (65799, 65843); (65856, 65912); (65930, 65931);
   (66176, 66204); (66208, 66256); (66273, 66299); (66304, 66339);
   (66349, 66378); (66384, 66421); (66432, 66461); (66464, 66499);
   (66504, 66511); (66513, 66517); (66560, 66717); (66720, 66729);
   (66736, 66771); (66776, 66811); (66816, 66855); (66864, 66915);
   (66928, 66938); (66940, 66954); (66956, 66962); (66964, 66965);
   (66967, 66977); (66979, 66993); (66995, 67001); (67003, 67004);
   (67072, 67382); (67392, 67413); (67424, 67431); (67456, 67461);
   (67463, 67504); (67506, 67514); (67584, 67589); (67592, 67592);
   (67594, 67637); (67639, 67640); (67644, 67644); (67647, 67669);
   (67672, 67702); (67705, 67742); (67751, 67759); (67808, 67826);
   (67828, 67829); (67835, 67867); (67872, 67897); (67968, 68023);
   (68028, 68047); (68050, 68096); (68112, 68115); (68117, 68119);
   (68121, 68149); (68160, 68168); (68192, 68222); (68224, 68255);
   (68288, 68295); (68297, 68324); (68331, 68335); (68352, 68405);
   (68416, 68437); (68440, 68466); (68472, 68497); (68521, 68527);
   (68608, 68680); (68736, 68786); (68800, 68850); (68858, 68899);
   (68912, 68921); (69216, 69246); (69248, 69289); (69296, 69297);
   (69376, 69415); (69424, 69445); (69457, 69460); (69488, 69505);
   (69552, 69579); (69600, 69622); (69635, 69687); (69714, 69743);
   (69745, 69746); (69749, 69749); (69763, 69807); (69840, 69864);
   (69872, 69881); (69891, 69926); (69942, 69951); (69956, 69956);
   (69959, 69959); (69968, 70002); (70006, 70006); (70019, 70066);
   (70081, 70084); (70096, 70106); (70108, 70108); (70113, 70132);
   (70144, 70161); (70163, 70187); (70272, 70278); (70280, 70280);
   (70282, 70285); (70287, 70301); (70303, 70312); (70320, 70366);
   (70384, 70393); (70405, 70412); (70415, 70416); (70419, 70440);
   (70442, 70448); (70450, 70451); (70453, 70457); (70461, 70461);
   (70480, 70480); (70493, 70497); (70656, 70708); (70727, 70730);
   (70736, 70745); (70751, 70753); (70784, 70831); (70852, 70853);
   (70855, 70855); (70864, 70873); (71040, 71086); (71128, 71131);
   (71168, 71215); (71236, 71236); (71248, 71257); (71296, 71338);
   (71352, 71352); (71360, 71369); (71424, 71450); (71472, 71483);
   (71488, 71494); (71680, 71723); (71840, 71922); (71935, 71942);
   (71945, 71945); (71948, 71955); (71957, 71958); (71960, 71983);
   (71999, 71999); (72001, 72001); (72016, 72025); (72096, 72103);
   (72106, 72144); (72161, 72161); (72163, 72163); (72192, 72192);
   (72203, 72242); (72250, 72250); (72272, 72272); (72284, 72329);
   (72349, 72349); (72368, 72440); (72704, 72712); (72714, 72750);
   (72768, 72768); (72784, 72812); (72818, 72847); (72960, 72966);
   (72968, 72969); (72971, 73008); (73030, 73030); (73040, 73049);
   (73056, 73061); (73063, 73064); (73066, 73097); (73112, 73112);
   (73120, 73129); (73440, 73458); (73648, 73648); (73664, 73684);
   (73728, 74649); (74752, 74862); (74880, 75075); (77712, 77808);
   (77824, 78894); (82944, 83526); (92160, 92728); (92736, 92766);
   (92768, 92777); (92784, 92862); (92864, 92873); (92880, 92909);
   (92928, 92975); (92992, 92995); (93008, 93017); (93019, 93025);
   (93027, 93047); (93053, 93071); (93760, 93846); (93952, 94026);
   (94032, 94032); (94099, 94111); (94176, 94177); (94179, 94179);
   (94208, 100343); (100352, 101589); (101632, 101640); (110576, 110579);
   (110581, 110587); (110589, 110590); (110592, 110882); (110928, 110930);
   (110948, 110951); (110960, 111355); (113664, 113770); (113776, 113788);
   (113792, 113800); (113808, 113817); (119520, 119539); (119648, 119672);
   (119808, 119892); (119894, 119964); (119966, 119967); (119970, 119970);
   (119973, 119974); (119977, 119980); (119982, 119993); (119995, 119995);
   (119997, 120003); (120005, 120069); (120071, 120074); (120077, 120084);
   (120086, 120092); (120094, 120121); (120123, 120126); (120128, 120132);
   (120134, 120134); (120138, 120144); (120146, 120485); (120488, 120512);
   (120514, 120538); (120540, 120570); (120572, 120596); (120598, 120628);
   (120630, 120654); (120656, 120686); (120688, 120712); (120714, 120744);
   (120746, 120770); (120772, 120779); (120782, 120831); (122624, 122654);
   (123136, 123180); (123191, 123197); (123200, 123209); (123214, 123214);
   (123536, 123565); (123584, 123627); (123632, 123641); (124896, 124902);
   (124904, 124907); (124909, 124910); (124912, 124926); (124928, 125124);
   (125127, 125135); (125184, 125251); (125259, 125259); (125264, 125273);
   (126065, 126123); (126125, 126127); (126129, 126132); (126209, 126253);
   (126255, 126269); (126464, 126467); (126469, 126495); (126497, 126498);
   (126500, 126500); (126503, 126503); (126505, 126514); (126516, 126519);
   (126521, 126521); (126523, 126523); (126530, 126530); (126535, 126535);
   (126537, 126537); (126539, 126539); (126541, 126543); (126545, 126546);
   (126548, 126548); (126551, 126551); (126553, 126553); (126555, 126555);
   (126557, 126557); (126559, 126559); (126561, 126562); (126564, 126564);
   (126567, 126570); (126572, 126578); (126580, 126583); (126585, 126588);
   (126590, 126590); (126592, 126601); (126603, 126619); (126625, 126627);
   (126629, 126633); (126635, 126651); (127232, 127244); (130032, 130041);
   (131072, 173791); (173824, 177976); (177984, 178205); (178208, 183969);
   (183984, 191456); (194560, 195101); (196608, 201546)]%N.

Definition isword (c : N) : bool :=
  existsb (fun r => in_range (fst r) (snd r) c) WORD_RANGES.

(** ** Strings *)

(** [s.lower()] *)
Fixpoint lower (s : string) : string :=
  match s with
  | EmptyString => EmptyString
  | String c s' => String (lower_char c) (lower s')
  end.

(** [s.startswith(p)] *)
Fixpoint startswith (p s : string) : bool :=
  match p, s with
  | EmptyString, _ => true
  | String a p', String c s' => Ascii.eqb a c && startswith p' s'
  | String _ _, EmptyString => false
  end.

(** [sub in s] *)
Fixpoint contains (sub s : string) : bool :=
  startswith sub s
  || match s with
     | EmptyString => false
     | String _ s' => contains sub s'
     end.

(** [s.split(sep)] for a one-character separator: empty pieces are kept. *)
Fixpoint split (sep : ascii) (s : string) : list string :=
  match s with
  | EmptyString => [EmptyString]
  | String c s' =>
      if Ascii.eqb c sep then EmptyString :: split sep s'
      else match split sep s' with
           | w :: ws => String c w :: ws
           | [] => [String c EmptyString]
           end
  end.

Fixpoint lstrip (s : string) : string :=
  match s with
  | EmptyString => EmptyString
  | String c s' => if isspace c then lstrip s' else s
  end.

Fixpoint rstrip (s : string) : string :=
  match s with
  | EmptyString => EmptyString
  | String c s' =>
      match rstrip s' with
      | EmptyString => if isspace c then EmptyString else String c EmptyString
      | r => String c r
      end
  end.

(** [s.strip()] *)
Definition strip (s : string) : string := rstrip (lstrip s).

(** [s.split()]: the maximal runs of characters that are not whitespace. *)
Fixpoint split_ws (s : string) : list string :=
  match s with
  | EmptyString => []
  | String c s' =>
      if isspace c then split_ws s'
      else match s' with
           | EmptyString => [String c EmptyString]
           | String c' _ =>
               if isspace c' then String c EmptyString :: split_ws s'
               else match split_ws s' with
                    | w :: ws => String c w :: ws
                    | [] => [String c EmptyString]
                    end
           end
  end.

(** Truth value of a [str]. *)
Definition nonempty (s : string) : bool :=
  match s with
  | EmptyString => false
  | String _ _ => true
  end.

(** [len(l)] *)
Definition len {A : Type} (l : list A) : Z := Z.of_nat (List.length l).

(** [l[0]] *)
Definition first_item {A : Type} (l : list A) : Exc A :=
  match l with
  | [] => raise IndexError
  | x :: _ => ret x
  end.

(** [x in l] for a list of strings. *)
Definition list_mem (x : string) (l : list string) : bool :=
  existsb (String.eqb x) l.

(** ** Floating point

    The three float operations the handler uses, on binary64. *)

Definition prec : Z := 53.
Definition emax : Z := 1024.

(** [float(n)] for an [int]. *)
Definition float_of_int (n : Z) : spec_float := binary_normalize prec emax n 0 false.

(** [a / b] for two [int]s: true division. *)
Definition truediv (a b : Z) : Exc spec_float :=
  if b =? 0 then raise ZeroDivisionError
  else ret (SFdiv prec emax (float_of_int a) (float_of_int b)).

Definition fmul (x y : spec_float) : spec_float := SFmul prec emax x y.
Definition fadd (x y : spec_float) : spec_float := SFadd prec emax x y.

(** [int(x)] for a [float]: the fraction is dropped (towards zero). *)
Definition int_of_float (x : spec_float) : Exc Z :=
  match x with
  | S754_zero _ => ret 0
  | S754_finite s m e => ret (cond_Zopp s (Z.shiftl (Z.pos m) e))
  | S754_infinity _ => raise OverflowError
  | S754_nan => raise ValueError
  end.

(** The literals [0.6] and [0.4]: the doubles nearest to 3/5 and 2/5. *)
Definition float_0_6 : spec_float := S754_finite false 5404319552844595 (-53).
Definition float_0_4 : spec_float := S754_finite false 7205759403792794 (-54).

(** ** The tables *)

Definition CATEGORY_KEYWORDS : list (string * list string) :=
  [ ("technical",
     ["python"; "java"; "c++"; "javascript"; "react"; "nodejs"; "django";
      "flask"; "html"; "css"; "sql"; "mongodb"; "mysql"; "git"; "github";
      "linux"; "aws"; "docker"; "kubernetes"]);
    ("uiux",
     ["figma"; "adobe xd"; "photoshop"; "illustrator"; "ux"; "ui";
      "wireframing"; "branding"; "canva"; "visual design"]);
    ("business",
     ["seo"; "sem"; "content marketing"; "social media"; "facebook ads";
      "google ads"; "email marketing"; "analytics"; "brand development";
      "project management"; "digital marketing"]) ].

(** [[kw for lst in CATEGORY_KEYWORDS.values() for kw in lst]] *)
Definition ALL_KEYWORDS : list string :=
  List.concat (List.map snd CATEGORY_KEYWORDS).

Definition SECTION_HEADERS : list string :=
  ["summary"; "education"; "experience"; "projects"; "skills";
   "certifications"; "achievements"].

Definition Detected : string := "Detected".
Definition NotDetected : string := "Not Detected".

(** ** The education pattern

    [re.search(r"\b(bachelor|master|education|degree)\b", text, re.I)]:
    a search tries every start position; at a position the pattern asks
    for a word boundary, one of the four words with case ignored, and a
    word boundary again.  The character before the position is carried
    along, [None] at the start of the text.

    Ignoring case is what [re] does for a [str] pattern, which is not
    what [str.lower] does: besides the two cases of a letter, [re.I] lets
    i match U+0130 and U+0131, s match U+017F and k match U+212A.  The
    search is therefore defined on a sequence of code points of any size,
    and the handler runs it on the code points of its text. *)

Definition EDUCATION_WORDS : list string :=
  ["bachelor"; "master"; "education"; "degree"].

(** The code points of a text. *)
Definition code_points (s : string) : list N :=
  List.map code (list_ascii_of_string s).

Definition isword_at (c : option N) : bool :=
  match c with
  | Some c => isword c
  | None => false
  end.

(** [\b] between two neighbouring characters. *)
Definition word_boundary (before after : option N) : bool :=
  xorb (isword_at before) (isword_at after).

Definition head_char (s : string) : option ascii :=
  match s with
  | EmptyString => None
  | String c _ => Some c
  end.

Definition first_point (s : list N) : option N :=
  match s with
  | [] => None
  | c :: _ => Some c
  end.

(** The lower-case code point of an ASCII character. *)
Definition fold_ascii (a : ascii) : N :=
  let n := code a in
  if in_range 65 90 n then (n + 32)%N else n.

(** One character of a literal under [re.I]: does the character [a] of
    the pattern, in the ASCII range, match the code point [c] of the
    text. *)
Definition nocase_match (a : ascii) (c : N) : bool :=
  let n := fold_ascii a in
  (c =? n)%N
  || (in_range 97 122 n && (c =? n - 32)%N)
  || ((n =? 105)%N && ((c =? 304)%N || (c =? 305)%N))
  || ((n =? 115)%N && (c =? 383)%N)
  || ((n =? 107)%N && (c =? 8490)%N).

(** A literal under [re.I], matched at the start of [s]: what is left of
    [s], with the character before it. *)
Fixpoint match_literal (w : string) (s : list N) (before : option N)
  : option (option N * list N) :=
  match w with
  | EmptyString => Some (before, s)
  | String a w' =>
      match s with
      | [] => None
      | c :: s' =>
          if nocase_match a c
          then match_literal w' s' (Some c)
          else None
      end
  end.

Definition match_at (before : option N) (s : list N) : bool :=
  word_boundary before (first_point s)
  && existsb (fun w =>
                match match_literal w s before with
                | Some (b, rest) => word_boundary b (first_point rest)
                | None => false
                end) EDUCATION_WORDS.

Fixpoint search_from (before : option N) (s : list N) : bool :=
  match_at before s
  || match s with
     | [] => false
     | c :: s' => search_from (Some c) s'
     end.

Definition education_search (text : string) : bool :=
  search_from None (code_points text).

(** ** The analysis *)

Definition experience_keywords : list string :=
  ["experience"; "years"; "worked"; "intern"; "project"; "developed"].

(** [[line.strip() for line in text.split("\n") if line.strip()]] *)
Definition lines_of (text : string) : list string :=
  List.filter nonempty (List.map strip (split "010"%char text)).

(** [lines[0] if 1 <= len(lines[0].split()) <= 4 else "Not Detected"] *)
Definition detect_name (lines : list string) : Exc string :=
  let* l0 := first_item lines in
  ret (if (1 <=? len (split_ws l0)) && (len (split_ws l0) <=? 4)
       then l0 else NotDetected).

Definition detect_education (text : string) : string :=
  if education_search text then Detected else NotDetected.

Definition detect_experience (text : string) : string :=
  if existsb (fun word => contains word (lower text)) experience_keywords
  then Detected else NotDetected.

(** [[kw for kw in kws if kw.lower() in text.lower()]] *)
Definition matching (text : string) (kws : list string) : list string :=
  List.filter (fun kw => contains (lower kw) (lower text)) kws.

Definition matched_keywords (text : string) : list string :=
  matching text ALL_KEYWORDS.

Definition match_by_category (text : string) : list (string * list string) :=
  List.map (fun '(cat, kws) => (cat, matching text kws)) CATEGORY_KEYWORDS.

(** [[sec for sec in SECTION_HEADERS if sec in text.lower()]] *)
Definition present_sections (text : string) : list string :=
  List.filter (fun sec => contains sec (lower text)) SECTION_HEADERS.

(** [list(set(SECTION_HEADERS) - set(present_sections))]: a list without
    repetition whose order Python does not fix; here it is the order of
    [elements]. *)
Definition missing_of (present : list string) : list string :=
  elements ((list_to_set SECTION_HEADERS : gset string) ∖ list_to_set present).

(** [int((n / d) * 100)] *)
Definition percent (n d : Z) : Exc Z :=
  let* q := truediv n d in
  int_of_float (fmul q (float_of_int 100)).

(** [int((skill_score * 0.6) + (section_score * 0.4))] *)
Definition weighted (skill section : Z) : Exc Z :=
  int_of_float (fadd (fmul (float_of_int skill) float_0_6)
                     (fmul (float_of_int section) float_0_4)).

Definition MSG_KEYWORDS : string :=
  "Include more technical and role-specific keywords to boost your ATS ranking.".
Definition MSG_SUMMARY : string :=
  "Add a professional summary at the top of your resume.".
Definition MSG_PROJECTS : string :=
  "Include relevant projects to demonstrate your practical experience.".
Definition MSG_TOOLS : string :=
  "Mention more tools or platforms like Git, Figma, or AWS.".
Definition MSG_EDUCATION : string :=
  "Clearly specify your educational background.".
Definition MSG_EXPERIENCE : string :=
  "Add work experience, internships, or personal projects.".
Definition MSG_SKILLS : string :=
  "Include a dedicated skills section listing your tools and technologies.".

(** [if c: suggestions.append(msg)] *)
Definition append_if (c : bool) (msg : string) (suggestions : list string)
  : list string :=
  if c then suggestions ++ [msg] else suggestions.

Definition make_suggestions (skill : Z) (present matched : list string)
  (edu exp : string) : list string :=
  let suggestions := [] in
  let suggestions := append_if (skill <? 60) MSG_KEYWORDS suggestions in
  let suggestions :=
    append_if (negb (list_mem "summary" present)) MSG_SUMMARY suggestions in
  let suggestions :=
    append_if (negb (list_mem "projects" present)) MSG_PROJECTS suggestions in
  let suggestions := append_if (len matched <? 8) MSG_TOOLS suggestions in
  let suggestions :=
    append_if (String.eqb edu NotDetected) MSG_EDUCATION suggestions in
  let suggestions :=
    append_if (String.eqb exp NotDetected) MSG_EXPERIENCE suggestions in
  let suggestions :=
    append_if (negb (list_mem "skills" present)) MSG_SKILLS suggestions in
  suggestions.

(** The dictionary returned on success, without [file_url];
    [ats_score_breakdown] is flattened into its two entries. *)
Record AnalysisResult : Type := {
  name : string;
  education : string;
  experience : string;
  skills : list string;
  matched_by_category : list (string * list string);
  ats_score : Z;
  skill_score : Z;
  section_score : Z;
  missing_sections : list string;
  suggestions : list string
}.

(** The body of the [try] block, from the extracted text on. *)
Definition analyse (text : string) : Exc AnalysisResult :=
  let lines := lines_of text in
  let* name := detect_name lines in
  let education := detect_education text in
  let experience := detect_experience text in
  let matched_keywords := matched_keywords text in
  let* skill_score := percent (len matched_keywords) (len ALL_KEYWORDS) in
  let matched_by_category := match_by_category text in
  let present_sections := present_sections text in
  let missing_sections := missing_of present_sections in
  let* section_score := percent (len present_sections) (len SECTION_HEADERS) in
  let* ats_score := weighted skill_score section_score in
  let suggestions :=
    make_suggestions skill_score present_sections matched_keywords
                     education experience in
  ret {| name := name;
         education := education;
         experience := experience;
         skills := matched_keywords;
         matched_by_category := matched_by_category;
         ats_score := ats_score;
         skill_score := skill_score;
         section_score := section_score;
         missing_sections := missing_sections;
         suggestions := suggestions |}.

(** What the endpoint answers: the dictionary, or status 500 with
    [{"error": str(e)}] when the body raised. *)
Inductive Response : Type :=
| Ok200 (r : AnalysisResult)
| Error500 (msg : string).

Definition parse_resume (text : string) : Response :=
  match analyse text with
  | inr r => Ok200 r
  | inl e => Error500 (str_of_error e)
  end.

(** ** Vocabulary of the specification

    The notions the specification words its properties with, independent
    of the code above. *)

(** The exact value of [100 * n / d]. *)
Definition ratio (n d : Z) : Q := (100 * inject_Z n / inject_Z d)%Q.

(** The exact value of [skill * 0.6 + section * 0.4]. *)
Definition weighted_sum (skill section : Z) : Q :=
  (inject_Z skill * 0.6 + inject_Z section * 0.4)%Q.

(** [z] is an integer nearest to [q]: what rounding to nearest yields,
    whichever way a tie is broken. *)
Definition nearest_integer (q : Q) (z : Z) : Prop :=
  (Qabs (q - inject_Z z) <= 1 # 2)%Q.

(** [w] occurs in [s] as a substring. *)
Definition occurs (w s : string) : Prop :=
  exists pre post : string, s = pre ++ w ++ post.

Fixpoint last_char (s : string) : option ascii :=
  match s with
  | EmptyString => None
  | String c EmptyString => Some c
  | String _ s' => last_char s'
  end.

Fixpoint last_point (s : list N) : option N :=
  match s with
  | [] => None
  | [c] => Some c
  | _ :: s' => last_point s'
  end.

(** [mid] reads [w] when case is ignored the way [re.I] ignores it: as
    long as [w], and character by character the same up to case. *)
Fixpoint reads_nocase (w : string) (mid : list N) : Prop :=
  match w, mid with
  | EmptyString, [] => True
  | String a w', c :: mid' => nocase_match a c = true /\ reads_nocase w' mid'
  | _, _ => False
  end.

(** [w] occurs in the code points [s] as a whole word, case ignored: a
    piece of [s] that reads [w] up to case, with no word character right
    before it and none right after it. *)
Definition occurs_as_word (w : string) (s : list N) : Prop :=
  exists pre mid post : list N,
    s = (pre ++ mid ++ post)%list
    /\ reads_nocase w mid
    /\ isword_at (last_point pre) = false
    /\ isword_at (first_point post) = false.

(** The same with case taken out by [str.lower]: a piece of the text [s]
    that is [w] once in lower case, between characters that are not word
    characters. *)
Definition occurs_as_lower_word (w s : string) : Prop :=
  exists pre mid post : string,
    s = pre ++ mid ++ post
    /\ lower mid = w
    /\ isword_at (option_map code (last_char pre)) = false
    /\ isword_at (option_map code (head_char post)) = false.

(** Lower-case ASCII letters only. *)
Fixpoint lower_letters (w : string) : bool :=
  match w with
  | EmptyString => true
  | String a w' => in_range 97 122 (code a) && lower_letters w'
  end.

(** Every character. *)
Definition all_ascii : list ascii := List.map ascii_of_nat (seq 0 256).

(** The code points that can match the character [a] of a pattern. *)
Definition candidates (a : ascii) : list N :=
  let n := fold_ascii a in [n; n - 32; 304; 305; 383; 8490]%N.

(** The character before the end of [mid], [before] being the one before
    its start. *)
Definition last_or (before : option N) (mid : list N) : option N :=
  match last_point mid with
  | Some c => Some c
  | None => before
  end.

(** A word of a vocabulary: word characters at both ends. *)
Definition wordy (w : string) : bool :=
  isword_at (option_map code (head_char w))
  && isword_at (option_map code (last_char w)).

(** Three texts on which [re.I] and [str.lower] part ways, as code
    points: "educat" U+0131 "on", "ma" U+017F "ter" and
    "educat" U+0130 "on". *)
Definition dotless_education : list N :=
  [101; 100; 117; 99; 97; 116; 305; 111; 110]%N.
Definition long_s_master : list N := [109; 97; 383; 116; 101; 114]%N.
Definition dotted_education : list N :=
  [101; 100; 117; 99; 97; 116; 304; 111; 110]%N.

(** Some character of [s] is not whitespace. *)
Fixpoint has_ink (s : string) : bool :=
  match s with
  | EmptyString => false
  | String c s' => negb (isspace c) || has_ink s'
  end.

(** The seven conditions of the suggestion checklist with their messages,
    in the order of the specification. *)
Definition checklist (skill : Z) (present matched : list string)
  (edu exp : string) : list (bool * string) :=
  [ (skill <? 60, MSG_KEYWORDS);
    (negb (list_mem "summary" present), MSG_SUMMARY);
    (negb (list_mem "projects" present), MSG_PROJECTS);
    (len matched <? 8, MSG_TOOLS);
    (String.eqb edu NotDetected, MSG_EDUCATION);
    (String.eqb exp NotDetected, MSG_EXPERIENCE);
    (negb (list_mem "skills" present), MSG_SKILLS) ].

Definition ALL_MESSAGES : list string :=
  [MSG_KEYWORDS; MSG_SUMMARY; MSG_PROJECTS; MSG_TOOLS; MSG_EDUCATION;
   MSG_EXPERIENCE; MSG_SKILLS].

(** The texts of the worked examples. *)
Definition newline : string := String "010" EmptyString.

Definition text_six_sections : string :=
  "summary education experience projects skills certifications".

Definition text_one_of_each : string := "John" ++ newline ++ "skills: python".

Definition text_scenario_A : string :=
  "John Smith" ++ newline
  ++ "Experience: developed a Django project using Python and Git."
  ++ newline ++ "Education: Bachelor degree.".

(** What the handler returns on them. *)
Definition report_scenario_A : AnalysisResult :=
  {| name := "John Smith";
     education := "Detected";
     experience := "Detected";
     skills := ["python"; "django"; "git"];
     matched_by_category :=
       [("technical", ["python"; "django"; "git"]); ("uiux", []);
        ("business", [])];
     ats_score := 15;
     skill_score := 7;
     section_score := 28;
     missing_sections :=
       missing_of ["education"; "experience"];
     suggestions :=
       [MSG_KEYWORDS; MSG_SUMMARY; MSG_PROJECTS; MSG_TOOLS; MSG_SKILLS] |}.

Definition report_one_of_each : AnalysisResult :=
  {| name := "John";
     education := "Not Detected";
     experience := "Not Detected";
     skills := ["python"];
     matched_by_category :=
       [("technical", ["python"]); ("uiux", []); ("business", [])];
     ats_score := 6;
     skill_score := 2;
     section_score := 14;
     missing_sections := missing_of ["skills"];
     suggestions :=
       [MSG_KEYWORDS; MSG_SUMMARY; MSG_PROJECTS; MSG_TOOLS; MSG_EDUCATION;
        MSG_EXPERIENCE] |}.

Definition report_six_sections : AnalysisResult :=
  {| name := "Not Detected";
     education := "Detected";
     experience := "Detected";
     skills := [];
     matched_by_category := [("technical", []); ("uiux", []); ("business", [])];
     ats_score := 34;
     skill_score := 0;
     section_score := 85;
     missing_sections := ["achievements"];
     suggestions := [MSG_KEYWORDS; MSG_TOOLS] |}.

(** The two scores are [100 * count / total] rounded to nearest. *)
Definition scores_rounded (text : string) (r : AnalysisResult) : Prop :=
  nearest_integer (ratio (len (skills r)) (len ALL_KEYWORDS)) (skill_score r)
  /\ nearest_integer
       (ratio (len (present_sections text)) (len SECTION_HEADERS))
       (section_score r).

(** The overall score is the weighted sum rounded to nearest. *)
Definition ats_rounded (r : AnalysisResult) : Prop :=
  nearest_integer (weighted_sum (skill_score r) (section_score r))
                  (ats_score r).

Definition text_github : string :=
  "Ann Lee" ++ newline ++ "Code on GitHub, runs on Linux".

Definition report_github : AnalysisResult :=
  {| name := "Ann Lee";
     education := "Not Detected";
     experience := "Not Detected";
     skills := ["git"; "github"; "linux"; "ux"];
     matched_by_category :=
       [("technical", ["git"; "github"; "linux"]); ("uiux", ["ux"]);
        ("business", [])];
     ats_score := 6;
     skill_score := 10;
     section_score := 0;
     missing_sections := missing_of [];
     suggestions := ALL_MESSAGES |}.


(** [c in s] for a character. *)
Fixpoint mem_char (c : ascii) (s : string) : bool :=
  match s with
  | EmptyString => false
  | String d s' => Ascii.eqb c d || mem_char c s'
  end.

Definition isspace_at (c : option ascii) : bool :=
  match c with
  | Some c => isspace c
  | None => false
  end.

(** A computation returned [v]. *)
Definition returns (m : Exc Z) (v : Z) : bool :=
  match m with
  | inr x => x =? v
  | inl _ => false
  end.

(** The integers [0 .. n]. *)
Definition upto (n : nat) : list Z := List.map Z.of_nat (seq 0 (S n)).

(** * Properties *)

(** ** Scores

    The float computations are settled by running them on every count
    the tables allow: 41 keyword counts and 8 section counts. *)

Lemma upto_forallb (P : Z -> bool) (n : nat) :
  forallb P (upto n) = true ->
  forall z, 0 <= z <= Z.of_nat n -> P z = true.
Proof.
  intros Hall z Hz.
  rewrite forallb_forall in Hall. apply Hall.
  unfold upto. apply in_map_iff. exists (Z.to_nat z). split.
  - lia.
  - apply in_seq. lia.
Qed.

Lemma returns_eq (m : Exc Z) (v : Z) : returns m v = true -> m = ret v.
Proof.
  destruct m as [e|x]; simpl; [discriminate|].
  intros H. apply Z.eqb_eq in H. now subst.
Qed.

Lemma percent_keywords (n : Z) :
  0 <= n <= 40 -> percent n 40 = ret (100 * n / 40).
Proof.
  intros Hn. apply returns_eq.
  apply (upto_forallb (fun k => returns (percent k 40) (100 * k / 40)) 40);
    [now vm_compute | lia].
Qed.

Lemma percent_sections (n : Z) :
  0 <= n <= 7 -> percent n 7 = ret (100 * n / 7).
Proof.
  intros Hn. apply returns_eq.
  apply (upto_forallb (fun k => returns (percent k 7) (100 * k / 7)) 7);
    [now vm_compute | lia].
Qed.

Lemma weighted_floor (k j : Z) :
  0 <= k <= 40 -> 0 <= j <= 7 ->
  weighted (100 * k / 40) (100 * j / 7)
  = ret ((6 * (100 * k / 40) + 4 * (100 * j / 7)) / 10).
Proof.
  intros Hk Hj. apply returns_eq.
  pose (P := fun k j : Z =>
               returns (weighted (100 * k / 40) (100 * j / 7))
                       ((6 * (100 * k / 40) + 4 * (100 * j / 7)) / 10)).
  change (P k j = true).
  apply (upto_forallb (P k) 7); [|lia].
  apply (upto_forallb (fun k => forallb (P k) (upto 7)) 40);
    [now vm_compute | lia].
Qed.

Lemma Qfloor_ratio (n d : Z) : Qfloor (ratio n d) = 100 * n / d.
Proof.
  unfold ratio. rewrite Zdiv_Qdiv, inject_Z_mult. reflexivity.
Qed.

Lemma weighted_sum_tenths (s t : Z) :
  (weighted_sum s t == inject_Z (6 * s + 4 * t) / inject_Z 10)%Q.
Proof.
  unfold weighted_sum. rewrite inject_Z_plus, !inject_Z_mult. field.
Qed.

Lemma Qfloor_weighted_sum (s t : Z) :
  Qfloor (weighted_sum s t) = (6 * s + 4 * t) / 10.
Proof.
  rewrite Zdiv_Qdiv. apply Qfloor_comp, weighted_sum_tenths.
Qed.

Lemma float_literals :
  truediv 6 10 = ret float_0_6 /\ truediv 4 10 = ret float_0_4.
Proof. split; now vm_compute. Qed.

(** ** The handler, field by field *)

Lemma len_filter {A : Type} (f : A -> bool) (l : list A) :
  0 <= len (List.filter f l) <= len l.
Proof.
  unfold len. pose proof (List.filter_length_le f l). lia.
Qed.

Lemma len_ALL_KEYWORDS : len ALL_KEYWORDS = 40.
Proof. reflexivity. Qed.

Lemma len_SECTION_HEADERS : len SECTION_HEADERS = 7.
Proof. reflexivity. Qed.

Lemma matched_count (text : string) : 0 <= len (matched_keywords text) <= 40.
Proof. rewrite <- len_ALL_KEYWORDS. apply len_filter. Qed.

Lemma present_count (text : string) : 0 <= len (present_sections text) <= 7.
Proof. rewrite <- len_SECTION_HEADERS. apply len_filter. Qed.

Lemma skill_percent (text : string) :
  percent (len (matched_keywords text)) (len ALL_KEYWORDS)
  = ret (100 * len (matched_keywords text) / 40).
Proof. rewrite len_ALL_KEYWORDS. apply percent_keywords, matched_count. Qed.

Lemma section_percent (text : string) :
  percent (len (present_sections text)) (len SECTION_HEADERS)
  = ret (100 * len (present_sections text) / 7).
Proof. rewrite len_SECTION_HEADERS. apply percent_sections, present_count. Qed.

Lemma bind_ret {A B : Type} (a : A) (k : A -> Exc B) : bind (ret a) k = k a.
Proof. reflexivity. Qed.

(** The record the handler builds once the name is found. *)
Lemma analyse_fields (text : string) (r : AnalysisResult) :
  analyse text = inr r ->
  detect_name (lines_of text) = ret (name r)
  /\ education r = detect_education text
  /\ experience r = detect_experience text
  /\ skills r = matched_keywords text
  /\ matched_by_category r = match_by_category text
  /\ skill_score r = 100 * len (matched_keywords text) / 40
  /\ section_score r = 100 * len (present_sections text) / 7
  /\ ats_score r = (6 * skill_score r + 4 * section_score r) / 10
  /\ missing_sections r = missing_of (present_sections text)
  /\ suggestions r
     = make_suggestions (skill_score r) (present_sections text)
         (matched_keywords text) (education r) (experience r).
Proof.
  unfold analyse.
  destruct (detect_name (lines_of text)) as [e|nm]; [discriminate|].
  change (inr nm : Exc string) with (ret nm).
  rewrite bind_ret, skill_percent, bind_ret, section_percent, bind_ret.
  rewrite (weighted_floor _ _ (matched_count text) (present_count text)),
    bind_ret.
  generalize (100 * len (matched_keywords text) / 40) as s.
  generalize (100 * len (present_sections text) / 7) as t.
  generalize (matched_keywords text) as matched.
  generalize (present_sections text) as present.
  generalize (match_by_category text) as by_cat.
  generalize (detect_education text) as edu.
  generalize (detect_experience text) as exp.
  intros exp edu by_cat present matched t s [= <-].
  repeat split.
Qed.

Lemma parse_resume_Ok (text : string) (r : AnalysisResult) :
  parse_resume text = Ok200 r -> analyse text = inr r.
Proof.
  unfold parse_resume. destruct (analyse text); [discriminate|].
  now intros [= ->].
Qed.

(** The only exception the body can raise is the one of [lines[0]]. *)
Lemma analyse_lines (text : string) :
  match lines_of text with
  | [] => analyse text = raise IndexError
  | _ :: _ => exists r, analyse text = ret r
  end.
Proof.
  unfold analyse. destruct (lines_of text) as [|l0 rest]; [reflexivity|].
  unfold detect_name, first_item.
  rewrite !bind_ret, skill_percent, bind_ret, section_percent, bind_ret.
  rewrite (weighted_floor _ _ (matched_count text) (present_count text)),
    bind_ret.
  eexists. reflexivity.
Qed.

(** ** Strings: append, lower case, substrings *)

Lemma append_cons (x : ascii) (a b : string) :
  String x a ++ b = String x (a ++ b).
Proof. reflexivity. Qed.

Lemma append_nil (b : string) : "" ++ b = b.
Proof. reflexivity. Qed.

Lemma append_assoc (a b c : string) : (a ++ b) ++ c = a ++ b ++ c.
Proof.
  induction a as [|x a IH]; [reflexivity|].
  now rewrite !append_cons, IH.
Qed.

Lemma append_empty_r (a : string) : a ++ "" = a.
Proof.
  induction a as [|x a IH]; [reflexivity|].
  now rewrite append_cons, IH.
Qed.

Lemma lower_append (a b : string) : lower (a ++ b) = lower a ++ lower b.
Proof.
  induction a as [|x a IH]; [reflexivity|].
  rewrite append_cons. cbn [lower]. now rewrite append_cons, IH.
Qed.

Lemma startswith_prefix (p s : string) :
  startswith p s = true <-> exists post, s = p ++ post.
Proof.
  revert s. induction p as [|a p IH]; intros s; cbn [startswith].
  - split; [intros _; now exists s | reflexivity].
  - destruct s as [|c s].
    + split; [discriminate | intros [post H]; discriminate H].
    + rewrite andb_true_iff, IH. split.
      * intros [Hac [post ->]]. apply Ascii.eqb_eq in Hac. subst c.
        now exists post.
      * intros [post H]. rewrite append_cons in H. injection H as -> ->.
        split; [apply Ascii.eqb_refl | now exists post].
Qed.

Lemma contains_cons (w : string) (c : ascii) (s : string) :
  contains w (String c s) = startswith w (String c s) || contains w s.
Proof. reflexivity. Qed.

Lemma contains_startswith (w s : string) :
  startswith w s = true -> contains w s = true.
Proof. intros H. destruct s; cbn [contains]; now rewrite H. Qed.

Lemma contains_occurs (w s : string) : contains w s = true <-> occurs w s.
Proof.
  split.
  - induction s as [|c s IH].
    + cbn [contains]. rewrite orb_false_r. intros H.
      apply startswith_prefix in H as [post ->]. now exists "", post.
    + rewrite contains_cons, orb_true_iff. intros [H|H].
      * apply startswith_prefix in H as [post ->]. now exists "", post.
      * destruct (IH H) as (pre & post & ->). now exists (String c pre), post.
  - intros (pre & post & ->). induction pre as [|c pre IH].
    + apply contains_startswith, startswith_prefix. now exists post.
    + rewrite append_cons, contains_cons, IH. apply orb_true_r.
Qed.

Lemma occurs_append_r (w t s : string) : occurs w t -> occurs w (t ++ s).
Proof.
  intros (pre & post & ->). exists pre, (post ++ s).
  now rewrite !append_assoc.
Qed.

Lemma occurs_shorter (a b s : string) : occurs (a ++ b) s -> occurs a s.
Proof.
  intros (pre & post & ->). exists pre, (b ++ post).
  now rewrite append_assoc.
Qed.

Lemma contains_append_r (w t s : string) :
  contains w t = true -> contains w (t ++ s) = true.
Proof. rewrite !contains_occurs. apply occurs_append_r. Qed.

(** ** Lines: when [lines[0]] exists *)

Lemma nonempty_rstrip (s : string) : nonempty (rstrip s) = has_ink s.
Proof.
  induction s as [|c s IH]; simpl; [reflexivity|].
  destruct (rstrip s) as [|d r]; simpl in *; rewrite <- IH.
  - destruct (isspace c); reflexivity.
  - now rewrite orb_true_r.
Qed.

Lemma has_ink_lstrip (s : string) : has_ink (lstrip s) = has_ink s.
Proof.
  induction s as [|c s IH]; simpl; [reflexivity|].
  destruct (isspace c) eqn:Hc; simpl; [exact IH | now rewrite Hc].
Qed.

Lemma nonempty_strip (s : string) : nonempty (strip s) = has_ink s.
Proof. unfold strip. now rewrite nonempty_rstrip, has_ink_lstrip. Qed.

Lemma has_ink_append (t s : string) :
  has_ink (t ++ s) = has_ink t || has_ink s.
Proof.
  induction t as [|c t IH]; [reflexivity|].
  rewrite append_cons. cbn [has_ink]. now rewrite IH, orb_assoc.
Qed.

Lemma split_has_ink (text : string) :
  existsb (fun l => nonempty (strip l)) (split "010" text) = has_ink text.
Proof.
  induction text as [|c text IH]; [reflexivity|].
  cbn [split has_ink]. destruct (Ascii.eqb c "010") eqn:Hc.
  - apply Ascii.eqb_eq in Hc. subst c. exact IH.
  - destruct (split "010" text) as [|w ws]; cbn [existsb] in *.
    + rewrite nonempty_strip. cbn [has_ink]. rewrite <- IH.
      now rewrite !orb_false_r.
    + rewrite <- IH, !nonempty_strip. cbn [has_ink]. now rewrite orb_assoc.
Qed.

Lemma filter_nil_existsb {A : Type} (f : A -> bool) (l : list A) :
  List.filter f l = [] <-> existsb f l = false.
Proof.
  induction l as [|x l IH]; simpl; [tauto|].
  destruct (f x); simpl; [split; discriminate | exact IH].
Qed.

Lemma existsb_over_map {A B : Type} (f : B -> bool) (g : A -> B) (l : list A) :
  existsb f (List.map g l) = existsb (fun x => f (g x)) l.
Proof.
  induction l as [|x l IH]; simpl; [reflexivity | now rewrite IH].
Qed.

Lemma lines_of_nil (text : string) :
  lines_of text = [] <-> has_ink text = false.
Proof.
  unfold lines_of. rewrite filter_nil_existsb, existsb_over_map.
  now rewrite split_has_ink.
Qed.

(** The handler answers 200 exactly on the texts that hold a character
    other than whitespace; on the others [lines[0]] raises. *)
Lemma parse_resume_total (text : string) :
  if has_ink text
  then exists r, parse_resume text = Ok200 r
  else parse_resume text = Error500 "list index out of range".
Proof.
  pose proof (analyse_lines text) as H.
  pose proof (lines_of_nil text) as Hn. unfold parse_resume.
  destruct (lines_of text) as [|l0 rest].
  - rewrite (proj1 Hn eq_refl). now rewrite H.
  - destruct (has_ink text); [|now destruct Hn as [_ Hn]; specialize (Hn eq_refl)].
    destruct H as [r ->]. now exists r.
Qed.

(** ** The education pattern finds whole words *)

Lemma last_point_cons (c : N) (s : list N) :
  last_point (c :: s) = last_or (Some c) s.
Proof.
  revert c. induction s as [|d s IH]; intros c; [reflexivity|].
  unfold last_or. change (last_point (c :: d :: s)) with (last_point (d :: s)).
  rewrite IH. unfold last_or. now destruct (last_point s).
Qed.

Lemma last_or_cons (before : option N) (c : N) (s : list N) :
  last_or before (c :: s) = last_or (Some c) s.
Proof.
  unfold last_or at 1. rewrite last_point_cons.
  unfold last_or. now destruct (last_point s).
Qed.

Lemma last_or_None (s : list N) : last_or None s = last_point s.
Proof. unfold last_or. now destruct (last_point s). Qed.

Lemma match_literal_spec (w : string) (s : list N) (before b : option N)
  (rest : list N) :
  match_literal w s before = Some (b, rest)
  <-> exists mid, s = (mid ++ rest)%list /\ reads_nocase w mid
                  /\ b = last_or before mid.
Proof.
  revert s before. induction w as [|a w IH]; intros s before.
  - cbn [match_literal]. split.
    + intros [= <- <-]. now exists [].
    + intros (mid & -> & Hm & ->). destruct mid; [reflexivity | destruct Hm].
  - cbn [match_literal]. destruct s as [|c s].
    + split; [discriminate|]. intros (mid & Hs & Hm & _).
      destruct mid; [destruct Hm | discriminate Hs].
    + destruct (nocase_match a c) eqn:Hc.
      * rewrite IH. split.
        -- intros (mid & -> & Hm & ->). exists (c :: mid).
           rewrite last_or_cons. now repeat split.
        -- intros (mid & Hs & Hm & ->). destruct mid as [|c' mid];
             [destruct Hm|].
           injection Hs as <- ->. destruct Hm as [_ Hm].
           exists mid. now rewrite last_or_cons.
      * split; [discriminate|]. intros (mid & Hs & Hm & _).
        destruct mid as [|c' mid]; [destruct Hm|].
        injection Hs as <- ->. destruct Hm as [Hm _].
        rewrite Hm in Hc. discriminate Hc.
Qed.

Lemma match_at_spec (before : option N) (s : list N) :
  match_at before s = true
  <-> word_boundary before (first_point s) = true
      /\ exists w mid rest,
           In w EDUCATION_WORDS /\ s = (mid ++ rest)%list
           /\ reads_nocase w mid
           /\ word_boundary (last_or before mid) (first_point rest) = true.
Proof.
  unfold match_at. rewrite andb_true_iff, existsb_exists.
  apply and_iff_compat_l. split.
  - intros (w & Hw & H).
    destruct (match_literal w s before) as [[b rest]|] eqn:Hm; [|discriminate].
    apply match_literal_spec in Hm as (mid & -> & Hl & ->).
    now exists w, mid, rest.
  - intros (w & mid & rest & Hw & Hs & Hl & Hb). exists w. split; [exact Hw|].
    assert (Hm : match_literal w s before = Some (last_or before mid, rest))
      by (apply match_literal_spec; now exists mid).
    now rewrite Hm.
Qed.

Lemma search_from_spec (before : option N) (s : list N) :
  search_from before s = true
  <-> exists pre rest,
        s = (pre ++ rest)%list /\ match_at (last_or before pre) rest = true.
Proof.
  revert before. induction s as [|c s IH]; intros before.
  - cbn [search_from]. rewrite orb_false_r. split.
    + intros H. now exists [], [].
    + intros (pre & rest & Hs & H). symmetry in Hs.
      apply List.app_eq_nil in Hs as [-> ->]. exact H.
  - cbn [search_from]. rewrite orb_true_iff, IH. split.
    + intros [H|(pre & rest & -> & H)].
      * now exists [], (c :: s).
      * exists (c :: pre), rest. now rewrite last_or_cons.
    + intros (pre & rest & Hs & H). destruct pre as [|c' pre].
      * left. simpl in Hs. now subst rest.
      * right. injection Hs as <- ->.
        exists pre, rest. now rewrite last_or_cons in H.
Qed.

Lemma In_all_ascii (a : ascii) : In a all_ascii.
Proof.
  unfold all_ascii. apply in_map_iff. exists (nat_of_ascii a). split.
  - apply ascii_nat_embedding.
  - apply in_seq. pose proof (nat_ascii_bounded a). lia.
Qed.

Lemma nocase_match_candidates (a : ascii) (c : N) :
  nocase_match a c = true -> In c (candidates a).
Proof.
  unfold nocase_match, candidates.
  rewrite !orb_true_iff, !andb_true_iff, !orb_true_iff, !N.eqb_eq.
  cbn [In]. intuition auto.
Qed.

(** A character that matches a character of the pattern is a word
    character exactly when that one is. *)
Lemma nocase_match_isword (a : ascii) (c : N) :
  nocase_match a c = true -> isword c = isword (code a).
Proof.
  intros Hm.
  assert (Hall : forallb (fun a =>
                   forallb (fun c => implb (nocase_match a c)
                                       (Bool.eqb (isword c) (isword (code a))))
                           (candidates a)) all_ascii = true)
    by now vm_compute.
  rewrite forallb_forall in Hall. specialize (Hall a (In_all_ascii a)).
  rewrite forallb_forall in Hall.
  specialize (Hall c (nocase_match_candidates a c Hm)).
  rewrite Hm in Hall. now apply Bool.eqb_prop in Hall.
Qed.

Lemma reads_first (w : string) (mid : list N) :
  reads_nocase w mid ->
  isword_at (first_point mid) = isword_at (option_map code (head_char w)).
Proof.
  destruct w as [|a w], mid as [|c mid]; try (intros []; fail);
    [reflexivity|].
  intros [Hm _]. apply (nocase_match_isword a c Hm).
Qed.

Lemma reads_last (w : string) (mid : list N) :
  reads_nocase w mid ->
  isword_at (last_point mid) = isword_at (option_map code (last_char w)).
Proof.
  revert mid. induction w as [|a w IH]; intros mid.
  - destruct mid; [reflexivity | intros []].
  - destruct mid as [|c mid]; [intros []|]. intros [Hm Hr].
    destruct w as [|a' w], mid as [|c' mid]; try (destruct Hr; fail).
    + apply (nocase_match_isword a c Hm).
    + apply (IH (c' :: mid) Hr).
Qed.

Lemma wordy_vocabulary (w : string) : In w EDUCATION_WORDS -> wordy w = true.
Proof.
  intros H.
  assert (Hall : forallb wordy EDUCATION_WORDS = true) by now vm_compute.
  rewrite forallb_forall in Hall. now apply Hall.
Qed.

(** A piece that reads a vocabulary word up to case begins and ends with
    a word character. *)
Lemma wordy_ends (w : string) (mid : list N) :
  wordy w = true -> reads_nocase w mid ->
  isword_at (first_point mid) = true /\ isword_at (last_point mid) = true.
Proof.
  unfold wordy. rewrite andb_true_iff. intros [Hh Hl] Hr.
  now rewrite (reads_first w mid Hr), (reads_last w mid Hr).
Qed.

Lemma first_point_app (mid rest : list N) :
  isword_at (first_point mid) = true ->
  first_point (mid ++ rest)%list = first_point mid.
Proof. destruct mid; [discriminate | reflexivity]. Qed.

Lemma last_or_wordy (before : option N) (mid : list N) :
  isword_at (last_point mid) = true -> last_or before mid = last_point mid.
Proof.
  unfold last_or. destruct (last_point mid); [reflexivity | discriminate].
Qed.

(** The search on any sequence of code points. *)
Lemma search_spec (s : list N) :
  search_from None s = true
  <-> exists w, In w EDUCATION_WORDS /\ occurs_as_word w s.
Proof.
  rewrite search_from_spec. split.
  - intros (pre & rest0 & -> & H). apply match_at_spec in H as [Hb H].
    destruct H as (w & mid & rest & Hw & -> & Hl & He).
    destruct (wordy_ends w mid (wordy_vocabulary w Hw) Hl) as [Hh Ht].
    exists w. split; [exact Hw|]. exists pre, mid, rest.
    rewrite last_or_None in Hb. rewrite (first_point_app _ _ Hh) in Hb.
    rewrite (last_or_wordy _ _ Ht) in He. unfold word_boundary in Hb, He.
    rewrite Hh in Hb. rewrite Ht in He.
    repeat split; [exact Hl | |].
    + now destruct (isword_at (last_point pre)).
    + now destruct (isword_at (first_point rest)).
  - intros (w & Hw & pre & mid & rest & -> & Hl & Hp & Hr).
    destruct (wordy_ends w mid (wordy_vocabulary w Hw) Hl) as [Hh Ht].
    exists pre, (mid ++ rest)%list. split; [reflexivity|].
    apply match_at_spec. rewrite last_or_None, (first_point_app _ _ Hh).
    unfold word_boundary at 1. rewrite Hp, Hh. split; [reflexivity|].
    exists w, mid, rest. repeat split; [exact Hw | exact Hl |].
    rewrite (last_or_wordy _ _ Ht). unfold word_boundary.
    now rewrite Ht, Hr.
Qed.

Lemma education_search_spec (text : string) :
  education_search text = true
  <-> exists w, In w EDUCATION_WORDS /\ occurs_as_word w (code_points text).
Proof. apply search_spec. Qed.

(** The search finds the three of them, as [re.I] does, although none
    is a vocabulary word once in lower case. *)
Lemma folded_letters_found :
  search_from None dotless_education = true
  /\ search_from None long_s_master = true
  /\ search_from None dotted_education = true.
Proof. now vm_compute. Qed.

(** ** The claims *)

(** C1 (the code departs from it).  On a text without any line the
    handler does not return a report: [lines[0]] raises [IndexError],
    which the endpoint answers with status 500 and the message below.
    Evaluated here on the empty text. *)
Theorem empty_text_raises :
  parse_resume "" = Error500 "list index out of range".
Proof. reflexivity. Qed.

(** C2.  Whenever the handler returns a report, both partial scores lie
    between 0 and 100, and [ats_score] is the integer cast of the float
    expression [skill_score * 0.6 + section_score * 0.4], which is the
    floor of the exact weighted sum. *)
Theorem scores_bounded_ats_floor (text : string) (r : AnalysisResult) :
  parse_resume text = Ok200 r ->
  0 <= skill_score r <= 100
  /\ 0 <= section_score r <= 100
  /\ weighted (skill_score r) (section_score r) = ret (ats_score r)
  /\ ats_score r = Qfloor (weighted_sum (skill_score r) (section_score r)).
Proof.
  intros H. apply parse_resume_Ok, analyse_fields in H.
  destruct H as (_ & _ & _ & _ & _ & Hs & Ht & Ha & _).
  pose proof (matched_count text) as Hk.
  pose proof (present_count text) as Hj.
  rewrite Qfloor_weighted_sum, Ha. rewrite Hs, Ht.
  rewrite (weighted_floor _ _ Hk Hj).
  revert Hk Hj. generalize (len (matched_keywords text)) as k.
  generalize (len (present_sections text)) as j. intros j k Hk Hj.
  repeat split; try reflexivity;
    try (apply Z.div_pos; lia); apply Z.div_le_upper_bound; lia.
Qed.

Lemma scores_bounded_ats_floor_witness :
  parse_resume text_scenario_A = Ok200 report_scenario_A
  /\ 0 <= 7 <= 100 /\ 0 <= 28 <= 100
  /\ weighted 7 28 = ret 15
  /\ 15 = Qfloor (weighted_sum 7 28).
Proof.
  split; [now vm_compute|].
  apply (scores_bounded_ats_floor text_scenario_A report_scenario_A).
  now vm_compute.
Defined.

(** C3 as the specification words it fails: with six of the seven
    section names in the text the handler reports [section_score = 85],
    while [100 * 6 / 7] is nearer to 86. *)
Lemma six_sections_not_rounded :
  parse_resume text_six_sections = Ok200 report_six_sections
  /\ ~ scores_rounded text_six_sections report_six_sections.
Proof.
  split; [now vm_compute|].
  intros [_ H]. vm_compute in H. now apply H.
Qed.

(** C3, amended.  Whenever the handler returns a report, [skill_score] is
    the floor of [100 * |matched keywords| / |all keywords|] and
    [section_score] is the floor of
    [100 * |present sections| / |section headers|]: the fraction is
    dropped, not rounded. *)
Theorem scores_are_floors (text : string) (r : AnalysisResult) :
  parse_resume text = Ok200 r ->
  skill_score r = Qfloor (ratio (len (skills r)) (len ALL_KEYWORDS))
  /\ section_score r
     = Qfloor (ratio (len (present_sections text)) (len SECTION_HEADERS)).
Proof.
  intros H. apply parse_resume_Ok, analyse_fields in H.
  destruct H as (_ & _ & _ & Hm & _ & Hs & Ht & _).
  rewrite !Qfloor_ratio, len_ALL_KEYWORDS, len_SECTION_HEADERS, Hm.
  now split.
Qed.

Lemma scores_are_floors_witness :
  parse_resume text_six_sections = Ok200 report_six_sections
  /\ 0 = Qfloor (ratio 0 40) /\ 85 = Qfloor (ratio 6 7).
Proof.
  split; [now vm_compute|].
  apply (scores_are_floors text_six_sections report_six_sections).
  now vm_compute.
Defined.

(** C4 as the specification words it fails: with one keyword and one
    section name the partial scores are 2 and 14, the weighted sum is
    6.8, and the handler reports [ats_score = 6], not 7. *)
Lemma one_of_each_not_rounded :
  parse_resume text_one_of_each = Ok200 report_one_of_each
  /\ ~ ats_rounded report_one_of_each.
Proof.
  split; [now vm_compute|].
  intros H. vm_compute in H. now apply H.
Qed.

(** C4, amended.  Whenever the handler returns a report, [ats_score] is
    the weighted sum [skill_score * 0.6 + section_score * 0.4] with its
    fraction dropped: the greatest integer that does not exceed it. *)
Theorem ats_score_truncated (text : string) (r : AnalysisResult) :
  parse_resume text = Ok200 r ->
  let x := weighted_sum (skill_score r) (section_score r) in
  ats_score r = Qfloor x
  /\ (inject_Z (ats_score r) <= x < inject_Z (ats_score r + 1))%Q.
Proof.
  intros H x. apply parse_resume_Ok, analyse_fields in H.
  destruct H as (_ & _ & _ & _ & _ & _ & _ & Ha & _).
  assert (Hx : ats_score r = Qfloor x)
    by (unfold x; now rewrite Qfloor_weighted_sum).
  split; [exact Hx|]. rewrite Hx. split; [apply Qfloor_le | apply Qlt_floor].
Qed.

Lemma ats_score_truncated_witness :
  parse_resume text_one_of_each = Ok200 report_one_of_each
  /\ 6 = Qfloor (weighted_sum 2 14)
  /\ (inject_Z 6 <= weighted_sum 2 14 < inject_Z 7)%Q.
Proof.
  split; [now vm_compute|].
  apply (ats_score_truncated text_one_of_each report_one_of_each).
  now vm_compute.
Defined.

(** ** Sections, categories, suggestions *)

Lemma present_are_headers (text : string) :
  (list_to_set (present_sections text) : gset string)
  ⊆ list_to_set SECTION_HEADERS.
Proof.
  intros x. rewrite !elem_of_list_to_set, !list_elem_of_In.
  unfold present_sections. rewrite filter_In. tauto.
Qed.

Lemma missing_of_set (present : list string) :
  (list_to_set (missing_of present) : gset string)
  = list_to_set SECTION_HEADERS ∖ list_to_set present.
Proof. unfold missing_of. apply list_to_set_elements_L. Qed.

(** C5.  Whenever the handler returns a report, the present sections and
    the missing sections, taken as sets, are disjoint and their union is
    the set of all section headers. *)
Theorem sections_partition (text : string) (r : AnalysisResult) :
  parse_resume text = Ok200 r ->
  let present : gset string := list_to_set (present_sections text) in
  let missing : gset string := list_to_set (missing_sections r) in
  present ## missing /\ present ∪ missing = list_to_set SECTION_HEADERS.
Proof.
  intros H present missing. apply parse_resume_Ok, analyse_fields in H.
  destruct H as (_ & _ & _ & _ & _ & _ & _ & _ & Hm & _).
  pose proof (present_are_headers text) as Hsub.
  unfold missing. rewrite Hm, missing_of_set. fold present in Hsub |- *.
  clearbody present. clear Hm missing. split.
  - apply elem_of_disjoint. intros x Hp Hx.
    apply elem_of_difference in Hx as [_ Hx]. exact (Hx Hp).
  - apply set_eq. intros x. rewrite elem_of_union, elem_of_difference. split.
    + intros [Hp|[Hx _]]; [exact (Hsub x Hp) | exact Hx].
    + intros Hx. destruct (decide (x ∈ present)); [now left | now right].
Qed.

Lemma sections_partition_witness :
  parse_resume text_scenario_A = Ok200 report_scenario_A
  /\ (list_to_set ["education"; "experience"] : gset string)
     ## list_to_set (missing_of ["education"; "experience"])
  /\ (list_to_set ["education"; "experience"] : gset string)
     ∪ list_to_set (missing_of ["education"; "experience"])
     = list_to_set SECTION_HEADERS.
Proof.
  split; [now vm_compute|].
  apply (sections_partition text_scenario_A report_scenario_A).
  now vm_compute.
Defined.

Lemma matching_concat (text : string) (ls : list (list string)) :
  matching text (List.concat ls) = List.concat (List.map (matching text) ls).
Proof. unfold matching. symmetry. apply concat_filter_map. Qed.

(** C6.  Whenever the handler returns a report, [matched_by_category]
    lists the categories of the table in the table's order, every keyword
    listed under a category belongs to that category in the table, and
    [skills] is the concatenation of the per-category lists in that
    order. *)
Theorem category_integrity (text : string) (r : AnalysisResult) :
  parse_resume text = Ok200 r ->
  List.map fst (matched_by_category r) = List.map fst CATEGORY_KEYWORDS
  /\ (forall c kws, In (c, kws) (matched_by_category r) ->
        exists taxonomy, In (c, taxonomy) CATEGORY_KEYWORDS
                         /\ incl kws taxonomy)
  /\ skills r = List.concat (List.map snd (matched_by_category r)).
Proof.
  intros H. apply parse_resume_Ok, analyse_fields in H.
  destruct H as (_ & _ & _ & Hs & Hc & _).
  rewrite Hs, Hc. unfold matched_keywords, match_by_category, ALL_KEYWORDS.
  generalize CATEGORY_KEYWORDS as table. intros table. repeat split.
  - rewrite List.map_map. apply List.map_ext. now intros [c kws].
  - intros c kws Hin. apply in_map_iff in Hin as ([c' tax] & [= <- <-] & Hin).
    exists tax. split; [exact Hin|]. apply incl_filter.
  - rewrite matching_concat, !List.map_map. f_equal.
    apply List.map_ext. now intros [c kws].
Qed.

Lemma category_integrity_witness :
  parse_resume text_scenario_A = Ok200 report_scenario_A
  /\ List.map fst (matched_by_category report_scenario_A)
     = List.map fst CATEGORY_KEYWORDS
  /\ (forall c kws, In (c, kws) (matched_by_category report_scenario_A) ->
        exists taxonomy, In (c, taxonomy) CATEGORY_KEYWORDS
                         /\ incl kws taxonomy)
  /\ ["python"; "django"; "git"]
     = List.concat (List.map snd (matched_by_category report_scenario_A)).
Proof.
  split; [now vm_compute|].
  apply (category_integrity text_scenario_A report_scenario_A).
  now vm_compute.
Defined.

(** The successive appends amount to keeping, in order, the messages of
    the checklist whose condition holds. *)
Lemma make_suggestions_checklist (skill : Z) (present matched : list string)
  (edu exp : string) :
  make_suggestions skill present matched edu exp
  = List.map snd (List.filter fst (checklist skill present matched edu exp)).
Proof.
  unfold make_suggestions, checklist.
  generalize (skill <? 60) as c1.
  generalize (negb (list_mem "summary" present)) as c2.
  generalize (negb (list_mem "projects" present)) as c3.
  generalize (len matched <? 8) as c4.
  generalize (String.eqb edu NotDetected) as c5.
  generalize (String.eqb exp NotDetected) as c6.
  generalize (negb (list_mem "skills" present)) as c7.
  intros [] [] [] [] [] [] []; reflexivity.
Qed.

Lemma checklist_messages (skill : Z) (present matched : list string)
  (edu exp : string) :
  List.map snd (checklist skill present matched edu exp) = ALL_MESSAGES.
Proof. reflexivity. Qed.

Lemma NoDup_ALL_MESSAGES : List.NoDup ALL_MESSAGES.
Proof.
  unfold ALL_MESSAGES.
  repeat (apply List.NoDup_cons; [cbn [In]; intuition discriminate|]).
  apply List.NoDup_nil.
Qed.

Lemma In_kept {A : Type} (x : A) (l : list (bool * A)) :
  In x (List.map snd (List.filter fst l)) <-> In (true, x) l.
Proof.
  rewrite in_map_iff. split.
  - intros ([b y] & <- & H). apply filter_In in H as [H Hb].
    simpl in Hb. now subst b.
  - intros H. exists (true, x). split; [reflexivity|].
    apply filter_In. now split.
Qed.

Lemma NoDup_kept {A : Type} (l : list (bool * A)) :
  List.NoDup (List.map snd l) -> List.NoDup (List.map snd (List.filter fst l)).
Proof.
  induction l as [|[b x] l IH]; simpl; [intros _; apply List.NoDup_nil|].
  intros H. apply List.NoDup_cons_iff in H as [Hx Hl].
  destruct b; simpl; [|now apply IH].
  apply List.NoDup_cons_iff. split; [|now apply IH].
  intros Hin. apply Hx. apply In_kept in Hin.
  apply in_map_iff. now exists (true, x).
Qed.

Lemma length_kept {A : Type} (l : list (bool * A)) :
  (List.length (List.map snd (List.filter fst l)) <= List.length l)%nat.
Proof. rewrite List.length_map. apply List.filter_length_le. Qed.

(** C7.  Whenever the handler returns a report, [suggestions] holds, in
    the order of the checklist, exactly the messages of the seven
    conditions that are true (skill score below 60; no summary; no
    projects; fewer than 8 matched keywords; education not detected;
    experience not detected; no skills section); it has no repetition and
    at most seven entries. *)
Theorem suggestions_follow_checklist (text : string) (r : AnalysisResult) :
  parse_resume text = Ok200 r ->
  suggestions r
  = List.map snd
      (List.filter fst
         (checklist (skill_score r) (present_sections text) (skills r)
                    (education r) (experience r)))
  /\ List.NoDup (suggestions r)
  /\ (List.length (suggestions r) <= 7)%nat.
Proof.
  intros H. apply parse_resume_Ok, analyse_fields in H.
  destruct H as (_ & _ & _ & Hm & _ & _ & _ & _ & _ & Hs).
  rewrite Hs, Hm, make_suggestions_checklist.
  set (l := checklist _ _ _ _ _).
  assert (Hl : List.map snd l = ALL_MESSAGES) by apply checklist_messages.
  clearbody l. repeat split.
  - apply NoDup_kept. rewrite Hl. apply NoDup_ALL_MESSAGES.
  - etransitivity; [apply length_kept|].
    rewrite <- (List.length_map snd l), Hl. reflexivity.
Qed.

Lemma suggestions_follow_checklist_witness :
  parse_resume text_scenario_A = Ok200 report_scenario_A
  /\ [MSG_KEYWORDS; MSG_SUMMARY; MSG_PROJECTS; MSG_TOOLS; MSG_SKILLS]
     = List.map snd
         (List.filter fst
            (checklist 7 ["education"; "experience"]
                       ["python"; "django"; "git"] "Detected" "Detected"))
  /\ List.NoDup [MSG_KEYWORDS; MSG_SUMMARY; MSG_PROJECTS; MSG_TOOLS; MSG_SKILLS]
  /\ (5 <= 7)%nat.
Proof.
  split; [now vm_compute|].
  apply (suggestions_follow_checklist text_scenario_A report_scenario_A).
  now vm_compute.
Defined.

(** ** Experience *)

Lemma detect_experience_Detected (text : string) :
  detect_experience text = Detected
  <-> exists w, In w experience_keywords /\ occurs w (lower text).
Proof.
  unfold detect_experience.
  destruct (existsb _ experience_keywords) eqn:He.
  - split; [intros _ | reflexivity].
    apply existsb_exists in He as (w & Hw & Hc).
    exists w. split; [exact Hw | now apply contains_occurs].
  - split; [discriminate|]. intros (w & Hw & Ho). exfalso.
    apply contains_occurs in Ho.
    assert (Ht : existsb (fun word => contains word (lower text))
                         experience_keywords = true)
      by (apply existsb_exists; now exists w).
    rewrite Ht in He. discriminate He.
Qed.

Lemma In_present (sec text : string) :
  In sec (present_sections text) -> occurs sec (lower text).
Proof.
  unfold present_sections. rewrite filter_In. intros [_ H].
  now apply contains_occurs.
Qed.

(** C10.  Whenever the handler returns a report for a text in which the
    section test found "experience" or "projects", [experience] is
    "Detected" and the suggestion to add work experience is not among
    the suggestions. *)
Theorem section_implies_experience (text : string) (r : AnalysisResult) :
  parse_resume text = Ok200 r ->
  In "experience" (present_sections text)
  \/ In "projects" (present_sections text) ->
  experience r = Detected /\ ~ In MSG_EXPERIENCE (suggestions r).
Proof.
  intros H Hsec. apply parse_resume_Ok, analyse_fields in H.
  destruct H as (_ & _ & He & _ & _ & _ & _ & _ & _ & Hs).
  assert (Hexp : experience r = Detected).
  { rewrite He. apply detect_experience_Detected.
    destruct Hsec as [Hsec|Hsec]; apply In_present in Hsec.
    - exists "experience". split; [|exact Hsec]. simpl. tauto.
    - exists "project". split; [simpl; tauto|].
      apply (occurs_shorter "project" "s"). exact Hsec. }
  split; [exact Hexp|].
  rewrite Hs, make_suggestions_checklist, In_kept, Hexp.
  unfold checklist.
  generalize (skill_score r <? 60) as c1.
  generalize (negb (list_mem "summary" (present_sections text))) as c2.
  generalize (negb (list_mem "projects" (present_sections text))) as c3.
  generalize (len (matched_keywords text) <? 8) as c4.
  generalize (String.eqb (education r) NotDetected) as c5.
  generalize (negb (list_mem "skills" (present_sections text))) as c7.
  intros c7 c5 c4 c3 c2 c1 Hin.
  repeat (destruct Hin as [Hin|Hin]; [discriminate Hin|]).
  exact Hin.
Qed.

Lemma section_implies_experience_witness :
  parse_resume text_scenario_A = Ok200 report_scenario_A
  /\ "Detected" = Detected
  /\ ~ In MSG_EXPERIENCE
        [MSG_KEYWORDS; MSG_SUMMARY; MSG_PROJECTS; MSG_TOOLS; MSG_SKILLS].
Proof.
  split; [now vm_compute|].
  apply (section_implies_experience text_scenario_A report_scenario_A).
  - now vm_compute.
  - left. vm_compute. tauto.
Defined.

(** ** Education and experience *)

Lemma detect_education_Detected (text : string) :
  detect_education text = Detected <-> education_search text = true.
Proof.
  unfold detect_education. destruct (education_search text).
  - split; reflexivity.
  - split; discriminate.
Qed.

(** C8.  Whenever the handler returns a report, [education] is
    "Detected" exactly when one of bachelor, master, education, degree
    occurs in the text as a whole word with case ignored, as the regular
    expression ignores it: a piece of the text that matches the word
    character by character under [re.I], with no word character right
    before it and none right after it.  [experience] is "Detected"
    exactly when one of experience, years, worked, intern, project,
    developed occurs as a substring of the text in lower case. *)
Theorem presence_detectors (text : string) (r : AnalysisResult) :
  parse_resume text = Ok200 r ->
  (education r = Detected
   <-> exists w, In w ["bachelor"; "master"; "education"; "degree"]
                 /\ occurs_as_word w (code_points text))
  /\ (experience r = Detected
      <-> exists w,
            In w ["experience"; "years"; "worked"; "intern"; "project";
                  "developed"]
            /\ occurs w (lower text)).
Proof.
  intros H. apply parse_resume_Ok, analyse_fields in H.
  destruct H as (_ & Hedu & Hexp & _). rewrite Hedu, Hexp. split.
  - rewrite detect_education_Detected. apply education_search_spec.
  - apply detect_experience_Detected.
Qed.

Lemma presence_detectors_witness :
  parse_resume text_scenario_A = Ok200 report_scenario_A
  /\ ("Detected" = Detected
      <-> exists w, In w ["bachelor"; "master"; "education"; "degree"]
                    /\ occurs_as_word w (code_points text_scenario_A))
  /\ ("Detected" = Detected
      <-> exists w,
            In w ["experience"; "years"; "worked"; "intern"; "project";
                  "developed"]
            /\ occurs w (lower text_scenario_A)).
Proof.
  split; [now vm_compute|].
  apply (presence_detectors text_scenario_A report_scenario_A).
  now vm_compute.
Defined.

(** ** Appending text *)

Lemma filter_length_mono {A : Type} (f g : A -> bool) (l : list A) :
  (forall x, f x = true -> g x = true) ->
  (List.length (List.filter f l) <= List.length (List.filter g l))%nat.
Proof.
  intros Hfg. induction l as [|x l IH]; simpl; [lia|].
  destruct (f x) eqn:Hf.
  - rewrite (Hfg x Hf). simpl. lia.
  - destruct (g x); simpl; lia.
Qed.

Lemma matched_count_append (t s : string) :
  len (matched_keywords t) <= len (matched_keywords (t ++ s)).
Proof.
  unfold matched_keywords, matching, len. apply inj_le.
  apply filter_length_mono. intros kw. rewrite lower_append.
  apply contains_append_r.
Qed.

(** C9.  If the handler returns a report for [t], it returns one for
    [t ++ s] as well, whatever [s] is, and the skill score of the longer
    text is not smaller. *)
Theorem skill_score_monotone (t s : string) (r1 : AnalysisResult) :
  parse_resume t = Ok200 r1 ->
  exists r2, parse_resume (t ++ s) = Ok200 r2
             /\ skill_score r1 <= skill_score r2.
Proof.
  intros H1.
  assert (Hink : has_ink (t ++ s) = true).
  { rewrite has_ink_append. pose proof (parse_resume_total t) as Ht.
    destruct (has_ink t); [reflexivity|]. rewrite H1 in Ht. discriminate Ht. }
  pose proof (parse_resume_total (t ++ s)) as H2. rewrite Hink in H2.
  destruct H2 as [r2 H2]. exists r2. split; [exact H2|].
  apply parse_resume_Ok, analyse_fields in H1, H2.
  destruct H1 as (_ & _ & _ & _ & _ & -> & _).
  destruct H2 as (_ & _ & _ & _ & _ & -> & _).
  pose proof (matched_count_append t s) as Hle. revert Hle.
  generalize (len (matched_keywords t)) as k.
  generalize (len (matched_keywords (t ++ s))) as k'. intros k' k Hle.
  apply Z.div_le_mono; lia.
Qed.

Lemma skill_score_monotone_witness :
  parse_resume text_one_of_each = Ok200 report_one_of_each
  /\ exists r2,
       parse_resume (text_one_of_each ++ " and django") = Ok200 r2
       /\ 2 <= skill_score r2.
Proof.
  split; [now vm_compute|].
  apply (skill_score_monotone text_one_of_each " and django"
                              report_one_of_each).
  now vm_compute.
Defined.

(** * Further properties of the handler *)

(** ** When a report is returned *)

(** The endpoint answers 200 exactly on the texts that hold a character
    other than whitespace; every 500 it answers carries the message of
    the [IndexError] of [lines[0]]: neither the divisions nor the [int]
    casts ever raise. *)
Theorem report_iff_ink (text : string) :
  ((exists r, parse_resume text = Ok200 r) <-> has_ink text = true)
  /\ (forall msg, parse_resume text = Error500 msg ->
        msg = "list index out of range" /\ has_ink text = false).
Proof.
  pose proof (parse_resume_total text) as H.
  destruct (has_ink text).
  - destruct H as [r H]. split.
    + split; [reflexivity | intros _; now exists r].
    + intros msg Hm. rewrite H in Hm. discriminate Hm.
  - split.
    + split; [|discriminate]. intros [r Hr]. rewrite H in Hr. discriminate Hr.
    + intros msg Hm. rewrite H in Hm. injection Hm as <-. now split.
Qed.

(** ** The name *)

Lemma has_ink_rstrip (s : string) : has_ink (rstrip s) = has_ink s.
Proof.
  induction s as [|c s IH]; [reflexivity|].
  cbn [rstrip]. destruct (rstrip s) as [|d r].
  - cbn [has_ink] in *. rewrite <- IH.
    destruct (isspace c) eqn:Hc; cbn [has_ink]; rewrite ?Hc; reflexivity.
  - cbn [has_ink] in *. now rewrite <- IH.
Qed.

Lemma has_ink_strip (s : string) : has_ink (strip s) = has_ink s.
Proof. unfold strip. now rewrite has_ink_rstrip, has_ink_lstrip. Qed.

Lemma lines_have_ink (text l : string) :
  In l (lines_of text) -> has_ink l = true.
Proof.
  unfold lines_of. rewrite filter_In, in_map_iff.
  intros [(x & <- & _) H]. now rewrite has_ink_strip, <- nonempty_strip.
Qed.

Lemma split_ws_ink (s : string) : has_ink s = true -> 1 <= len (split_ws s).
Proof.
  unfold len. induction s as [|c s IH]; [discriminate|].
  cbn [has_ink split_ws]. destruct (isspace c).
  - exact IH.
  - intros _. destruct s as [|c' s]; [simpl; lia|].
    destruct (isspace c'); [simpl; lia|].
    destruct (split_ws (String c' s)); simpl; lia.
Qed.

(** Whenever the handler returns a report, the text has a first line
    that is not blank; that line, stripped, has at least one word, so the
    lower bound of the word-count test never fails: [name] is that line
    when it has at most four words and "Not Detected" otherwise. *)
Theorem name_is_first_line (text : string) (r : AnalysisResult) :
  parse_resume text = Ok200 r ->
  exists l0 rest,
    lines_of text = l0 :: rest
    /\ has_ink l0 = true
    /\ 1 <= len (split_ws l0)
    /\ name r = if len (split_ws l0) <=? 4 then l0 else NotDetected.
Proof.
  intros H. apply parse_resume_Ok, analyse_fields in H.
  destruct H as (Hn & _).
  pose proof (lines_have_ink text) as Hink.
  destruct (lines_of text) as [|l0 rest]; [discriminate Hn|].
  specialize (Hink l0 (or_introl eq_refl)).
  pose proof (split_ws_ink l0 Hink) as Hw.
  exists l0, rest. repeat split; [exact Hink | exact Hw|].
  unfold detect_name, first_item in Hn. rewrite bind_ret in Hn.
  injection Hn as <-. apply Z.leb_le in Hw. now rewrite Hw.
Qed.

Lemma name_is_first_line_witness :
  exists l0 rest,
    lines_of text_scenario_A = l0 :: rest
    /\ has_ink l0 = true
    /\ 1 <= len (split_ws l0)
    /\ "John Smith" = if len (split_ws l0) <=? 4 then l0 else NotDetected.
Proof.
  apply (name_is_first_line text_scenario_A report_scenario_A).
  now vm_compute.
Defined.

(** ** Which keywords and sections are reported *)

Lemma keywords_lower_case (kw : string) : In kw ALL_KEYWORDS -> lower kw = kw.
Proof.
  intros H.
  assert (Hall : forallb (fun k => String.eqb (lower k) k) ALL_KEYWORDS = true)
    by now vm_compute.
  rewrite forallb_forall in Hall. now apply String.eqb_eq, Hall.
Qed.

Lemma NoDup_ALL_KEYWORDS : List.NoDup ALL_KEYWORDS.
Proof. apply NoDup_ListNoDup, (bool_decide_unpack _). now vm_compute. Qed.

Lemma NoDup_SECTION_HEADERS : List.NoDup SECTION_HEADERS.
Proof. apply NoDup_ListNoDup, (bool_decide_unpack _). now vm_compute. Qed.

Lemma In_matched_keywords (text kw : string) :
  In kw (matched_keywords text)
  <-> In kw ALL_KEYWORDS /\ occurs kw (lower text).
Proof.
  unfold matched_keywords, matching. rewrite filter_In. split.
  - intros [Hin Hc]. rewrite (keywords_lower_case kw Hin) in Hc.
    split; [exact Hin | now apply contains_occurs].
  - intros [Hin Ho]. split; [exact Hin|].
    rewrite (keywords_lower_case kw Hin). now apply contains_occurs.
Qed.

(** Whenever the handler returns a report, a string is listed in
    [skills] exactly when it is a keyword of the table that occurs as a
    substring of the text in lower case; no keyword is listed twice. *)
Theorem skills_characterised (text : string) (r : AnalysisResult) :
  parse_resume text = Ok200 r ->
  (forall kw, In kw (skills r)
              <-> In kw ALL_KEYWORDS /\ occurs kw (lower text))
  /\ List.NoDup (skills r).
Proof.
  intros H. apply parse_resume_Ok, analyse_fields in H.
  destruct H as (_ & _ & _ & -> & _). split.
  - intros kw. apply In_matched_keywords.
  - apply List.NoDup_filter, NoDup_ALL_KEYWORDS.
Qed.

Lemma skills_characterised_witness :
  (forall kw, In kw ["python"; "django"; "git"]
              <-> In kw ALL_KEYWORDS /\ occurs kw (lower text_scenario_A))
  /\ List.NoDup ["python"; "django"; "git"].
Proof.
  apply (skills_characterised text_scenario_A report_scenario_A).
  now vm_compute.
Defined.

Lemma In_missing_of (present : list string) (sec : string) :
  In sec (missing_of present) <-> In sec SECTION_HEADERS /\ ~ In sec present.
Proof.
  unfold missing_of.
  rewrite <- list_elem_of_In, elem_of_elements, elem_of_difference.
  now rewrite !elem_of_list_to_set, !list_elem_of_In.
Qed.

Lemma length_missing_of (present : list string) :
  List.NoDup present -> incl present SECTION_HEADERS ->
  (List.length (missing_of present) + List.length present = 7)%nat.
Proof.
  intros Hnd Hincl. unfold missing_of.
  change (List.length (elements ?X)) with (size X).
  rewrite size_difference.
  - rewrite !size_list_to_set
      by (apply NoDup_ListNoDup; (exact Hnd || exact NoDup_SECTION_HEADERS)).
    assert (Hle : (List.length present <= List.length SECTION_HEADERS)%nat)
      by (apply List.NoDup_incl_length; assumption).
    change (List.length SECTION_HEADERS) with 7%nat in *. lia.
  - intros x. rewrite !elem_of_list_to_set, !list_elem_of_In. apply Hincl.
Qed.

(** Whenever the handler returns a report, a string is listed in
    [missing_sections] exactly when it is a section header that does not
    occur as a substring of the text in lower case; none is listed twice,
    and [section_score] is the truncated percentage of the headers that
    are not listed. *)
Theorem missing_characterised (text : string) (r : AnalysisResult) :
  parse_resume text = Ok200 r ->
  (forall sec, In sec (missing_sections r)
               <-> In sec SECTION_HEADERS /\ ~ occurs sec (lower text))
  /\ List.NoDup (missing_sections r)
  /\ section_score r = 100 * (7 - len (missing_sections r)) / 7.
Proof.
  intros H. apply parse_resume_Ok, analyse_fields in H.
  destruct H as (_ & _ & _ & _ & _ & _ & -> & _ & -> & _).
  split; [|split].
  - intros sec. rewrite In_missing_of. split.
    + intros [Hin Hn]. split; [exact Hin|].
      intros Ho. apply Hn. unfold present_sections. apply filter_In.
      split; [exact Hin | now apply contains_occurs].
    + intros [Hin Hn]. split; [exact Hin|].
      intros Hp. apply Hn. now apply In_present.
  - unfold missing_of. apply NoDup_ListNoDup, NoDup_elements.
  - assert (Hlen : (List.length (missing_of (present_sections text))
                    + List.length (present_sections text) = 7)%nat).
    { apply length_missing_of.
      - apply List.NoDup_filter, NoDup_SECTION_HEADERS.
      - apply incl_filter. }
    unfold len. f_equal. f_equal. lia.
Qed.

Lemma missing_characterised_witness :
  (forall sec, In sec (missing_sections report_six_sections)
               <-> In sec SECTION_HEADERS
                   /\ ~ occurs sec (lower text_six_sections))
  /\ List.NoDup ["achievements"]
  /\ 85 = 100 * (7 - 1) / 7.
Proof.
  apply (missing_characterised text_six_sections report_six_sections).
  now vm_compute.
Defined.

(** ** Keywords that contain other keywords *)

Lemma occurs_trans (a b s : string) : occurs a b -> occurs b s -> occurs a s.
Proof.
  intros (p1 & q1 & ->) (p & q & ->). exists (p ++ p1), (q1 ++ q).
  now rewrite !append_assoc.
Qed.

(** Whenever the handler returns a report, a keyword of the table that
    is a substring of a listed keyword is listed too. *)
Theorem contained_keyword_listed (text : string) (r : AnalysisResult)
  (kw1 kw2 : string) :
  parse_resume text = Ok200 r ->
  In kw1 ALL_KEYWORDS -> occurs kw1 kw2 ->
  In kw2 (skills r) -> In kw1 (skills r).
Proof.
  intros H Hin Hsub. apply parse_resume_Ok, analyse_fields in H.
  destruct H as (_ & _ & _ & -> & _). rewrite !In_matched_keywords.
  intros [_ Ho]. split; [exact Hin | exact (occurs_trans _ _ _ Hsub Ho)].
Qed.

Lemma contained_keyword_listed_witness : In "git" (skills report_github).
Proof.
  apply (contained_keyword_listed text_github report_github "git" "github").
  - now vm_compute.
  - vm_compute. tauto.
  - now exists "", "hub".
  - vm_compute. tauto.
Defined.

Lemma occurs_inside (pre w post : string) : occurs w (pre ++ w ++ post).
Proof. now exists pre, post. Qed.

(** Whenever the handler returns a report: "github" or "digital
    marketing" in [skills] brings "git"; "javascript" brings "java";
    "mysql" brings "sql"; "linux" brings "ux"; and with "project
    management" in [skills], [experience] is "Detected". *)
Theorem overlapping_keywords (text : string) (r : AnalysisResult) :
  parse_resume text = Ok200 r ->
  (In "github" (skills r) -> In "git" (skills r))
  /\ (In "digital marketing" (skills r) -> In "git" (skills r))
  /\ (In "javascript" (skills r) -> In "java" (skills r))
  /\ (In "mysql" (skills r) -> In "sql" (skills r))
  /\ (In "linux" (skills r) -> In "ux" (skills r))
  /\ (In "project management" (skills r) -> experience r = Detected).
Proof.
  intros H. apply parse_resume_Ok, analyse_fields in H.
  destruct H as (_ & _ & -> & -> & _).
  assert (Hsub : forall kw1 kw2, In kw1 ALL_KEYWORDS -> occurs kw1 kw2 ->
                   In kw2 (matched_keywords text) ->
                   In kw1 (matched_keywords text)).
  { intros kw1 kw2 Hin Hsub. rewrite !In_matched_keywords.
    intros [_ Ho]. split; [exact Hin | exact (occurs_trans _ _ _ Hsub Ho)]. }
  repeat split.
  - apply Hsub; [vm_compute; tauto | apply (occurs_inside "" "git" "hub")].
  - apply Hsub;
      [vm_compute; tauto | apply (occurs_inside "di" "git" "al marketing")].
  - apply Hsub; [vm_compute; tauto | apply (occurs_inside "" "java" "script")].
  - apply Hsub; [vm_compute; tauto | apply (occurs_inside "my" "sql" "")].
  - apply Hsub; [vm_compute; tauto | apply (occurs_inside "lin" "ux" "")].
  - rewrite In_matched_keywords. intros [_ Ho].
    apply detect_experience_Detected. exists "project". split.
    + vm_compute. tauto.
    + apply (occurs_trans _ "project management"); [|exact Ho].
      apply (occurs_inside "" "project" " management").
Qed.

Lemma overlapping_keywords_witness :
  (In "github" (skills report_github) -> In "git" (skills report_github))
  /\ (In "digital marketing" (skills report_github)
      -> In "git" (skills report_github))
  /\ (In "javascript" (skills report_github)
      -> In "java" (skills report_github))
  /\ (In "mysql" (skills report_github) -> In "sql" (skills report_github))
  /\ (In "linux" (skills report_github) -> In "ux" (skills report_github))
  /\ (In "project management" (skills report_github)
      -> experience report_github = Detected).
Proof.
  apply (overlapping_keywords text_github report_github).
  now vm_compute.
Defined.

(** ** The overall score *)

(** Whenever the handler returns a report, [ats_score] lies between the
    smaller and the larger of the two partial scores, hence between 0
    and 100, and it is 100 only when both partial scores are. *)
Theorem ats_between (text : string) (r : AnalysisResult) :
  parse_resume text = Ok200 r ->
  Z.min (skill_score r) (section_score r) <= ats_score r
  /\ ats_score r <= Z.max (skill_score r) (section_score r)
  /\ 0 <= ats_score r <= 100
  /\ (ats_score r = 100 <-> skill_score r = 100 /\ section_score r = 100).
Proof.
  intros H. apply parse_resume_Ok, analyse_fields in H.
  destruct H as (_ & _ & _ & _ & _ & Hs & Ht & -> & _).
  pose proof (matched_count text) as Hk.
  pose proof (present_count text) as Hj.
  rewrite Hs, Ht. revert Hk Hj.
  generalize (len (matched_keywords text)) as k.
  generalize (len (present_sections text)) as j. intros j k Hk Hj.
  pose proof (Z.div_mod (100 * k) 40 ltac:(lia)) as E1.
  pose proof (Z.mod_pos_bound (100 * k) 40 ltac:(lia)) as B1.
  pose proof (Z.div_mod (100 * j) 7 ltac:(lia)) as E2.
  pose proof (Z.mod_pos_bound (100 * j) 7 ltac:(lia)) as B2.
  revert E1 B1 E2 B2.
  generalize (100 * k / 40) as s, ((100 * k) mod 40) as s'.
  generalize (100 * j / 7) as t, ((100 * j) mod 7) as t'.
  intros t t' s s' E1 B1 E2 B2.
  pose proof (Z.div_mod (6 * s + 4 * t) 10 ltac:(lia)) as E3.
  pose proof (Z.mod_pos_bound (6 * s + 4 * t) 10 ltac:(lia)) as B3.
  revert E3 B3.
  generalize ((6 * s + 4 * t) / 10) as a, ((6 * s + 4 * t) mod 10) as a'.
  intros a a' E3 B3. lia.
Qed.

Lemma ats_between_witness :
  Z.min 7 28 <= 15 /\ 15 <= Z.max 7 28 /\ 0 <= 15 <= 100
  /\ (15 = 100 <-> 7 = 100 /\ 28 = 100).
Proof.
  apply (ats_between text_scenario_A report_scenario_A).
  now vm_compute.
Defined.

(** ** Which suggestions are made *)

Lemma list_mem_In (x : string) (l : list string) :
  list_mem x l = true <-> In x l.
Proof.
  unfold list_mem. rewrite existsb_exists. split.
  - intros (y & Hy & He). apply String.eqb_eq in He. now subst y.
  - intros H. exists x. split; [exact H | apply String.eqb_refl].
Qed.

Lemma skill_below_60 (k : Z) : (100 * k / 40 <? 60) = true <-> k < 24.
Proof.
  rewrite Z.ltb_lt.
  pose proof (Z.div_mod (100 * k) 40 ltac:(lia)) as E.
  pose proof (Z.mod_pos_bound (100 * k) 40 ltac:(lia)) as B.
  revert E B. generalize (100 * k / 40) as q, ((100 * k) mod 40) as m.
  intros q m E B. lia.
Qed.

(** Whenever the handler returns a report: the suggestion to include
    more keywords is made exactly when fewer than 24 keywords matched,
    the suggestion to mention more tools exactly when fewer than 8 did;
    so the second never comes without the first. *)
Theorem keyword_suggestions (text : string) (r : AnalysisResult) :
  parse_resume text = Ok200 r ->
  (In MSG_KEYWORDS (suggestions r) <-> len (skills r) < 24)
  /\ (In MSG_TOOLS (suggestions r) <-> len (skills r) < 8)
  /\ (In MSG_TOOLS (suggestions r) -> In MSG_KEYWORDS (suggestions r)).
Proof.
  intros H. apply parse_resume_Ok, analyse_fields in H.
  destruct H as (_ & _ & _ & -> & _ & -> & _ & _ & _ & ->).
  assert (H1 : In MSG_KEYWORDS
                 (make_suggestions (100 * len (matched_keywords text) / 40)
                    (present_sections text) (matched_keywords text)
                    (education r) (experience r))
               <-> len (matched_keywords text) < 24).
  { rewrite make_suggestions_checklist, In_kept, <- skill_below_60.
    unfold checklist.
    generalize (100 * len (matched_keywords text) / 40 <? 60) as c1.
    generalize (negb (list_mem "summary" (present_sections text))) as c2.
    generalize (negb (list_mem "projects" (present_sections text))) as c3.
    generalize (len (matched_keywords text) <? 8) as c4.
    generalize (String.eqb (education r) NotDetected) as c5.
    generalize (String.eqb (experience r) NotDetected) as c6.
    generalize (negb (list_mem "skills" (present_sections text))) as c7.
    intros c7 c6 c5 c4 c3 c2 c1. split.
    - intros Hin. destruct Hin as [Hin|Hin]; [now injection Hin|].
      repeat (destruct Hin as [Hin|Hin]; [discriminate Hin|]). destruct Hin.
    - intros ->. now left. }
  assert (H2 : In MSG_TOOLS
                 (make_suggestions (100 * len (matched_keywords text) / 40)
                    (present_sections text) (matched_keywords text)
                    (education r) (experience r))
               <-> len (matched_keywords text) < 8).
  { rewrite make_suggestions_checklist, In_kept, <- Z.ltb_lt.
    unfold checklist.
    generalize (100 * len (matched_keywords text) / 40 <? 60) as c1.
    generalize (negb (list_mem "summary" (present_sections text))) as c2.
    generalize (negb (list_mem "projects" (present_sections text))) as c3.
    generalize (len (matched_keywords text) <? 8) as c4.
    generalize (String.eqb (education r) NotDetected) as c5.
    generalize (String.eqb (experience r) NotDetected) as c6.
    generalize (negb (list_mem "skills" (present_sections text))) as c7.
    intros c7 c6 c5 c4 c3 c2 c1. split.
    - intros Hin. do 3 (destruct Hin as [Hin|Hin]; [discriminate Hin|]).
      destruct Hin as [Hin|Hin]; [now injection Hin|].
      repeat (destruct Hin as [Hin|Hin]; [discriminate Hin|]). destruct Hin.
    - intros ->. do 3 right. now left. }
  split; [exact H1|]. split; [exact H2|].
  rewrite H1, H2. lia.
Qed.

Lemma keyword_suggestions_witness :
  (In MSG_KEYWORDS (suggestions report_scenario_A) <-> 3 < 24)
  /\ (In MSG_TOOLS (suggestions report_scenario_A) <-> 3 < 8)
  /\ (In MSG_TOOLS (suggestions report_scenario_A)
      -> In MSG_KEYWORDS (suggestions report_scenario_A)).
Proof.
  apply (keyword_suggestions text_scenario_A report_scenario_A).
  now vm_compute.
Defined.

Lemma kept_checklist_nil (skill : Z) (present matched : list string)
  (edu exp : string) :
  List.map snd (List.filter fst (checklist skill present matched edu exp)) = []
  <-> (skill <? 60) = false
      /\ list_mem "summary" present = true
      /\ list_mem "projects" present = true
      /\ (len matched <? 8) = false
      /\ String.eqb edu NotDetected = false
      /\ String.eqb exp NotDetected = false
      /\ list_mem "skills" present = true.
Proof.
  unfold checklist.
  generalize (skill <? 60) as c1.
  generalize (list_mem "summary" present) as c2.
  generalize (list_mem "projects" present) as c3.
  generalize (len matched <? 8) as c4.
  generalize (String.eqb edu NotDetected) as c5.
  generalize (String.eqb exp NotDetected) as c6.
  generalize (list_mem "skills" present) as c7.
  intros [] [] [] [] [] [] []; cbn [negb List.filter List.map fst snd];
    (split; [intros H; try discriminate H; repeat split
            | intros (?&?&?&?&?&?&?); try discriminate; reflexivity]).
Qed.

Lemma detect_education_cases (text : string) :
  String.eqb (detect_education text) NotDetected = false
  <-> detect_education text = Detected.
Proof.
  unfold detect_education. destruct (education_search text).
  - split; reflexivity.
  - split; discriminate.
Qed.

Lemma detect_experience_cases (text : string) :
  String.eqb (detect_experience text) NotDetected = false
  <-> detect_experience text = Detected.
Proof.
  unfold detect_experience. destruct (existsb _ experience_keywords).
  - split; reflexivity.
  - split; discriminate.
Qed.

Lemma projects_imply_experience (text : string) :
  In "projects" (present_sections text) -> detect_experience text = Detected.
Proof.
  intros H. apply In_present in H. apply detect_experience_Detected.
  exists "project". split; [vm_compute; tauto|].
  apply (occurs_trans _ "projects"); [|exact H].
  apply (occurs_inside "" "project" "s").
Qed.

(** Whenever the handler returns a report, it makes no suggestion
    exactly when at least 24 keywords matched, the section names
    "summary", "projects" and "skills" occur in the text, and education
    was detected. *)
Theorem no_suggestions_iff (text : string) (r : AnalysisResult) :
  parse_resume text = Ok200 r ->
  suggestions r = []
  <-> 24 <= len (skills r)
      /\ In "summary" (present_sections text)
      /\ In "projects" (present_sections text)
      /\ In "skills" (present_sections text)
      /\ education r = Detected.
Proof.
  intros H. apply parse_resume_Ok, analyse_fields in H.
  destruct H as (_ & -> & -> & -> & _ & -> & _ & _ & _ & ->).
  rewrite make_suggestions_checklist, kept_checklist_nil.
  rewrite !list_mem_In, detect_education_cases, detect_experience_cases.
  pose proof (projects_imply_experience text) as Hp.
  rewrite !Z.ltb_ge. generalize (len (matched_keywords text)) as k. intros k.
  pose proof (Z.div_mod (100 * k) 40 ltac:(lia)) as E.
  pose proof (Z.mod_pos_bound (100 * k) 40 ltac:(lia)) as B.
  revert E B. generalize (100 * k / 40) as q, ((100 * k) mod 40) as m.
  intros q m E B. split.
  - intros (Hq & Hs & Hpr & _ & He & _ & Hsk). repeat split; auto; lia.
  - intros (Hk & Hs & Hpr & Hsk & He). repeat split; auto; lia.
Qed.

Lemma no_suggestions_iff_witness :
  suggestions report_scenario_A = []
  <-> 24 <= 3
      /\ In "summary" (present_sections text_scenario_A)
      /\ In "projects" (present_sections text_scenario_A)
      /\ In "skills" (present_sections text_scenario_A)
      /\ education report_scenario_A = Detected.
Proof.
  apply (no_suggestions_iff text_scenario_A report_scenario_A).
  now vm_compute.
Defined.

(** ** Letter case *)








(** ** Text around the text *)

Lemma occurs_embedded (w pre t post : string) :
  occurs w t -> occurs w (pre ++ t ++ post).
Proof.
  intros (p & q & ->). exists (pre ++ p), (q ++ post).
  now rewrite !append_assoc.
Qed.

Lemma contains_embedded (w pre t post : string) :
  contains w (lower t) = true ->
  contains w (lower (pre ++ t ++ post)) = true.
Proof.
  rewrite !lower_append, !contains_occurs. apply occurs_embedded.
Qed.

Lemma has_ink_embedded (pre t post : string) :
  has_ink t = true -> has_ink (pre ++ t ++ post) = true.
Proof.
  intros H. rewrite !has_ink_append, H. now rewrite orb_true_r.
Qed.

Lemma filter_incl_mono {A : Type} (f g : A -> bool) (l : list A) :
  (forall x, f x = true -> g x = true) ->
  incl (List.filter f l) (List.filter g l).
Proof.
  intros Hfg x. rewrite !filter_In. intros [Hin Hf]. split; auto.
Qed.

(** If the handler returns a report for [t], it returns one for [t] with
    any text put before and after it, and in the new report: no keyword
    is lost, no section becomes missing, none of the three scores is
    smaller, and experience stays detected. *)
Theorem surrounding_text (pre t post : string) (r1 : AnalysisResult) :
  parse_resume t = Ok200 r1 ->
  exists r2,
    parse_resume (pre ++ t ++ post) = Ok200 r2
    /\ incl (skills r1) (skills r2)
    /\ incl (missing_sections r2) (missing_sections r1)
    /\ skill_score r1 <= skill_score r2
    /\ section_score r1 <= section_score r2
    /\ ats_score r1 <= ats_score r2
    /\ (experience r1 = Detected -> experience r2 = Detected).
Proof.
  intros H1.
  assert (Hink : has_ink (pre ++ t ++ post) = true).
  { apply has_ink_embedded. pose proof (parse_resume_total t) as Ht.
    destruct (has_ink t); [reflexivity|]. rewrite H1 in Ht. discriminate Ht. }
  pose proof (parse_resume_total (pre ++ t ++ post)) as H2.
  rewrite Hink in H2. destruct H2 as [r2 H2]. exists r2. split; [exact H2|].
  apply parse_resume_Ok, analyse_fields in H1, H2.
  destruct H1 as (_ & _ & -> & -> & _ & K1 & T1 & -> & -> & _).
  destruct H2 as (_ & _ & -> & -> & _ & K2 & T2 & -> & -> & _).
  set (big := pre ++ t ++ post) in *.
  assert (Hm : incl (matched_keywords t) (matched_keywords big)).
  { apply filter_incl_mono. intros kw. apply contains_embedded. }
  assert (Hp : incl (present_sections t) (present_sections big)).
  { apply filter_incl_mono. intros sec. apply contains_embedded. }
  assert (Hmk : len (matched_keywords t) <= len (matched_keywords big)).
  { unfold matched_keywords, matching, len. apply inj_le.
    apply filter_length_mono. intros kw. apply contains_embedded. }
  assert (Hpk : len (present_sections t) <= len (present_sections big)).
  { unfold present_sections, len. apply inj_le.
    apply filter_length_mono. intros sec. apply contains_embedded. }
  assert (Hs : skill_score r1 <= skill_score r2)
    by (rewrite K1, K2; apply Z.div_le_mono; lia).
  assert (Ht : section_score r1 <= section_score r2)
    by (rewrite T1, T2; apply Z.div_le_mono; lia).
  repeat split; try assumption.
  - intros sec. rewrite !In_missing_of. intros [Hin Hn].
    split; [exact Hin|]. intros Hin1. apply Hn, Hp, Hin1.
  - apply Z.div_le_mono; lia.
  - rewrite !detect_experience_Detected. intros (w & Hw & Ho).
    exists w. split; [exact Hw|]. unfold big. rewrite !lower_append.
    now apply occurs_embedded.
Qed.

Lemma surrounding_text_witness :
  exists r2,
    parse_resume ("Resume" ++ text_one_of_each ++ ", django") = Ok200 r2
    /\ incl ["python"] (skills r2)
    /\ incl (missing_sections r2) (missing_of ["skills"])
    /\ 2 <= skill_score r2
    /\ 14 <= section_score r2
    /\ 6 <= ats_score r2
    /\ (experience report_one_of_each = Detected -> experience r2 = Detected).
Proof.
  apply (surrounding_text "Resume" text_one_of_each ", django"
                          report_one_of_each).
  now vm_compute.
Defined.

(** ** The lines *)

Lemma lstrip_head (s : string) : isspace_at (head_char (lstrip s)) = false.
Proof.
  induction s as [|c s IH]; [reflexivity|].
  cbn [lstrip]. destruct (isspace c) eqn:Hc; [exact IH | exact Hc].
Qed.

Lemma rstrip_head (s : string) :
  isspace_at (head_char s) = false -> head_char (rstrip s) = head_char s.
Proof.
  destruct s as [|c s]; [reflexivity|]. cbn [head_char isspace_at rstrip].
  intros Hc. destruct (rstrip s); [now rewrite Hc | reflexivity].
Qed.

Lemma rstrip_last (s : string) : isspace_at (last_char (rstrip s)) = false.
Proof.
  induction s as [|c s IH]; [reflexivity|].
  cbn [rstrip]. destruct (rstrip s) as [|d r].
  - destruct (isspace c) eqn:Hc; [reflexivity | exact Hc].
  - exact IH.
Qed.

Lemma mem_char_lstrip (x : ascii) (s : string) :
  mem_char x (lstrip s) = true -> mem_char x s = true.
Proof.
  induction s as [|c s IH]; [discriminate|].
  cbn [lstrip]. destruct (isspace c); [|easy].
  intros H. cbn [mem_char]. rewrite (IH H). apply orb_true_r.
Qed.

Lemma mem_char_rstrip (x : ascii) (s : string) :
  mem_char x (rstrip s) = true -> mem_char x s = true.
Proof.
  induction s as [|c s IH]; [discriminate|].
  cbn [rstrip]. destruct (rstrip s) as [|d r].
  - destruct (isspace c); [discriminate|]. cbn [mem_char].
    rewrite orb_false_r. intros ->. reflexivity.
  - cbn [mem_char] in *. intros H. apply orb_true_iff in H as [H|H].
    + now rewrite H.
    + rewrite (IH H). apply orb_true_r.
Qed.

Lemma split_pieces (sep : ascii) (s p : string) :
  In p (split sep s) -> mem_char sep p = false.
Proof.
  revert p. induction s as [|c s IH]; intros p.
  - intros [<-|[]]. reflexivity.
  - cbn [split]. destruct (Ascii.eqb c sep) eqn:Hc.
    + intros [<-|H]; [reflexivity | now apply IH].
    + destruct (split sep s) as [|w ws].
      * intros [<-|[]]. cbn [mem_char]. rewrite Ascii.eqb_sym, Hc. reflexivity.
      * intros [<-|H].
        -- cbn [mem_char]. rewrite Ascii.eqb_sym, Hc.
           apply (IH w). now left.
        -- apply IH. now right.
Qed.

(** Every line the handler keeps has a character that is not whitespace,
    neither starts nor ends with whitespace, and holds no line feed. *)
Lemma lines_trimmed (text l : string) :
  In l (lines_of text) ->
  has_ink l = true
  /\ isspace_at (head_char l) = false
  /\ isspace_at (last_char l) = false
  /\ mem_char "010" l = false.
Proof.
  intros Hl. split; [exact (lines_have_ink text l Hl)|].
  unfold lines_of in Hl. apply filter_In in Hl as [Hl _].
  apply in_map_iff in Hl as (x & <- & Hx). unfold strip. repeat split.
  - rewrite rstrip_head; apply lstrip_head.
  - apply rstrip_last.
  - apply split_pieces in Hx.
    destruct (mem_char "010" (rstrip (lstrip x))) eqn:Hm; [|reflexivity].
    apply mem_char_rstrip, mem_char_lstrip in Hm. now rewrite Hm in Hx.
Qed.

(** Whenever the handler returns a report, [name] is not empty, neither
    starts nor ends with whitespace, and holds no line feed. *)
Theorem name_trimmed (text : string) (r : AnalysisResult) :
  parse_resume text = Ok200 r ->
  name r <> ""
  /\ isspace_at (head_char (name r)) = false
  /\ isspace_at (last_char (name r)) = false
  /\ mem_char "010" (name r) = false.
Proof.
  intros H. apply parse_resume_Ok, analyse_fields in H.
  destruct H as (Hn & _).
  pose proof (lines_trimmed text) as Hl.
  destruct (lines_of text) as [|l0 rest]; [discriminate Hn|].
  specialize (Hl l0 (or_introl eq_refl)).
  unfold detect_name, first_item in Hn. rewrite bind_ret in Hn.
  injection Hn as <-.
  destruct ((1 <=? len (split_ws l0)) && (len (split_ws l0) <=? 4)).
  - destruct Hl as (Hink & Hh & Ht & Hm). repeat split; try assumption.
    intros ->. discriminate Hink.
  - now vm_compute.
Qed.

Lemma name_trimmed_witness :
  "John Smith" <> ""
  /\ isspace_at (head_char "John Smith") = false
  /\ isspace_at (last_char "John Smith") = false
  /\ mem_char "010" "John Smith" = false.
Proof.
  apply (name_trimmed text_scenario_A report_scenario_A).
  now vm_compute.
Defined.

(** ** The word "education" *)

Lemma code_points_append (a b : string) :
  code_points (a ++ b) = (code_points a ++ code_points b)%list.
Proof.
  unfold code_points. induction a as [|x a IH]; [reflexivity|].
  rewrite append_cons. cbn [list_ascii_of_string List.map app].
  now rewrite IH.
Qed.

Lemma first_point_code (s : string) :
  first_point (code_points s) = option_map code (head_char s).
Proof. destruct s; reflexivity. Qed.

Lemma last_point_code (s : string) :
  last_point (code_points s) = option_map code (last_char s).
Proof.
  induction s as [|c s IH]; [reflexivity|].
  destruct s as [|d s]; [reflexivity|]. exact IH.
Qed.

Lemma lower_char_matches (c : ascii) :
  in_range 97 122 (code (lower_char c)) = true ->
  nocase_match (lower_char c) (code c) = true.
Proof.
  assert (Hall : forallb (fun c =>
                   implb (in_range 97 122 (code (lower_char c)))
                         (nocase_match (lower_char c) (code c)))
                         all_ascii = true) by now vm_compute.
  rewrite forallb_forall in Hall. specialize (Hall c (In_all_ascii c)).
  intros H. now rewrite H in Hall.
Qed.

Lemma lower_reads (w mid : string) :
  lower_letters w = true -> lower mid = w ->
  reads_nocase w (code_points mid).
Proof.
  revert w. induction mid as [|c mid IH]; intros w Hw <-; [exact I|].
  cbn [lower lower_letters] in *. apply andb_true_iff in Hw as [Hc Hw].
  split; [now apply lower_char_matches | now apply IH].
Qed.

Lemma lower_word_occurs (w text : string) :
  occurs_as_lower_word w text -> occurs w (lower text).
Proof.
  intros (pre & mid & post & -> & <- & _). rewrite !lower_append.
  apply occurs_inside.
Qed.

Lemma lower_word_is_word (w text : string) :
  lower_letters w = true ->
  occurs_as_lower_word w text -> occurs_as_word w (code_points text).
Proof.
  intros Hw (pre & mid & post & -> & Hl & Hp & Hq).
  exists (code_points pre), (code_points mid), (code_points post).
  rewrite !code_points_append, last_point_code, first_point_code.
  repeat split; [now apply lower_reads | exact Hp | exact Hq].
Qed.

(** Whenever the handler returns a report: if a piece of the text is
    "education" once in lower case, with no word character right before
    it and none right after it, then education is detected and the
    section "education" is present. *)
Theorem education_word_and_section (text : string) (r : AnalysisResult) :
  parse_resume text = Ok200 r ->
  occurs_as_lower_word "education" text ->
  education r = Detected /\ In "education" (present_sections text).
Proof.
  intros H Hw. apply parse_resume_Ok, analyse_fields in H.
  destruct H as (_ & -> & _). split.
  - apply detect_education_Detected, education_search_spec.
    exists "education". split; [vm_compute; tauto|].
    now apply lower_word_is_word.
  - apply lower_word_occurs, contains_occurs in Hw.
    unfold present_sections. apply filter_In. split; [|exact Hw].
    vm_compute. tauto.
Qed.

Lemma education_word_and_section_witness :
  education report_scenario_A = Detected
  /\ In "education" (present_sections text_scenario_A).
Proof.
  apply (education_word_and_section text_scenario_A report_scenario_A).
  - now vm_compute.
  - exists ("John Smith" ++ newline
            ++ "Experience: developed a Django project using Python and Git."
            ++ newline),
      "Education", ": Bachelor degree.".
    now vm_compute.
Defined.

(** ** Extreme scores *)

Lemma len_nil {A : Type} (l : list A) : len l = 0 <-> l = [].
Proof. unfold len. destruct l; simpl; [tauto|]. split; [lia | discriminate]. Qed.

Lemma filter_full {A : Type} (f : A -> bool) (l : list A) :
  List.length (List.filter f l) = List.length l -> List.filter f l = l.
Proof.
  induction l as [|x l IH]; [reflexivity|]. simpl.
  destruct (f x); simpl; intros H.
  - f_equal. apply IH. lia.
  - pose proof (List.filter_length_le f l). lia.
Qed.

Lemma filter_full_len {A : Type} (f : A -> bool) (l : list A) :
  len (List.filter f l) = len l <-> List.filter f l = l.
Proof.
  split.
  - intros H. apply filter_full. unfold len in H. now apply Nat2Z.inj in H.
  - intros H. now rewrite H.
Qed.

Lemma skill_extremes (k : Z) :
  0 <= k <= 40 ->
  (100 * k / 40 = 0 <-> k = 0) /\ (100 * k / 40 = 100 <-> k = 40).
Proof.
  intros Hk.
  pose proof (Z.div_mod (100 * k) 40 ltac:(lia)) as E.
  pose proof (Z.mod_pos_bound (100 * k) 40 ltac:(lia)) as B.
  revert E B. generalize (100 * k / 40) as q, ((100 * k) mod 40) as m.
  intros q m E B. lia.
Qed.

Lemma section_extremes (j : Z) :
  0 <= j <= 7 ->
  (100 * j / 7 = 0 <-> j = 0) /\ (100 * j / 7 = 100 <-> j = 7).
Proof.
  intros Hj.
  pose proof (Z.div_mod (100 * j) 7 ltac:(lia)) as E.
  pose proof (Z.mod_pos_bound (100 * j) 7 ltac:(lia)) as B.
  revert E B. generalize (100 * j / 7) as q, ((100 * j) mod 7) as m.
  intros q m E B. lia.
Qed.

Lemma matched_all_len (text : string) :
  len (matched_keywords text) = len ALL_KEYWORDS
  <-> matched_keywords text = ALL_KEYWORDS.
Proof. unfold matched_keywords, matching. apply filter_full_len. Qed.

Lemma matched_all (text : string) :
  len (matched_keywords text) = 40 <-> matched_keywords text = ALL_KEYWORDS.
Proof. rewrite <- len_ALL_KEYWORDS. apply matched_all_len. Qed.

Lemma missing_none (text : string) :
  len (present_sections text) = 7
  <-> missing_of (present_sections text) = [].
Proof.
  assert (Hlen : (List.length (missing_of (present_sections text))
                  + List.length (present_sections text) = 7)%nat).
  { apply length_missing_of.
    - apply List.NoDup_filter, NoDup_SECTION_HEADERS.
    - apply incl_filter. }
  revert Hlen. unfold len.
  generalize (missing_of (present_sections text)) as m.
  generalize (present_sections text) as p. intros p m Hlen. split.
  - intros H. destruct m; [reflexivity | simpl in Hlen; lia].
  - intros ->. simpl in Hlen. lia.
Qed.

(** Whenever the handler returns a report: [skill_score] is 0 exactly
    when no keyword matched and 100 exactly when [skills] is the whole
    keyword table; [section_score] is 100 exactly when no section is
    missing and 0 exactly when none is present. *)
Theorem extreme_scores (text : string) (r : AnalysisResult) :
  parse_resume text = Ok200 r ->
  (skill_score r = 0 <-> skills r = [])
  /\ (skill_score r = 100 <-> skills r = ALL_KEYWORDS)
  /\ (section_score r = 100 <-> missing_sections r = [])
  /\ (section_score r = 0 <-> present_sections text = []).
Proof.
  intros H. apply parse_resume_Ok, analyse_fields in H.
  destruct H as (_ & _ & _ & -> & _ & -> & -> & _ & -> & _).
  destruct (skill_extremes _ (matched_count text)) as [K0 K100].
  destruct (section_extremes _ (present_count text)) as [J0 J100].
  rewrite K0, K100, J0, J100, matched_all, missing_none, !len_nil.
  repeat split; tauto.
Qed.

Lemma extreme_scores_witness :
  (7 = 0 <-> skills report_scenario_A = [])
  /\ (7 = 100 <-> skills report_scenario_A = ALL_KEYWORDS)
  /\ (28 = 100 <-> missing_sections report_scenario_A = [])
  /\ (28 = 0 <-> present_sections text_scenario_A = []).
Proof.
  apply (extreme_scores text_scenario_A report_scenario_A).
  now vm_compute.
Defined.

(** ** The education pattern on any text *)

(** On every sequence of code points, the search of line 86 succeeds
    exactly when one of bachelor, master, education, degree occurs as a
    whole word with case ignored as [re.I] ignores it. *)
Theorem pattern_finds_whole_words (s : list N) :
  search_from None s = true
  <-> exists w, In w ["bachelor"; "master"; "education"; "degree"]
                /\ occurs_as_word w s.
Proof. exact (search_spec s). Qed.
